(** * oscar_docdata: the Oscar facade and the merchant-name data migration

    A shallow embedding of [oscar_docdata/facade.py] and of
    [oscar_docdata/migrations/0004_fill_merchant_name.py].

    The Python code talks to a relational store through the Django ORM,
    writes to the logging module and sends a Django signal.  Those effects
    are rendered by a state-and-exception monad [M] over a [World] that
    holds the tables and a chronological journal of the observable effects
    (row writes, log records, signals).  Exceptions do not undo earlier
    writes: a raised exception is returned together with the world reached
    so far, as in Python. *)

From stdpp Require Import gmap strings list.
From Stdlib Require Import ZArith Ascii Lia.

Local Open Scope string_scope.
Local Open Scope Z_scope.

(** ** Exceptions *)

(** The exception classes that occur in the two source files, together with
    the built-in ones raised by the expressions they evaluate.  The
    constructor arguments of [PaymentError] are kept as Python keeps them,
    in [args]; one of them can be another exception object. *)
Inductive PyExc : Type :=
| IndexError
| ValueError
| AttributeError (name : string)
| KeyError (key : string)
| DoesNotExist (model : string)
| MultipleObjectsReturned (model : string)
| DocdataCreateError (value : string)
| PaymentError (args : list PyArg)
with PyArg : Type :=
| ArgStr (s : string)
| ArgExc (e : PyExc).

Definition is_DocdataCreateError (e : PyExc) : bool :=
  match e with DocdataCreateError _ => true | _ => false end.

(** [e.value] of a gateway creation error. *)
Definition exc_value (e : PyExc) : string :=
  match e with DocdataCreateError v => v | _ => "" end.

(** Does the exception object hold, directly or inside its arguments, a
    gateway creation error? *)
Fixpoint carries_gateway_error (e : PyExc) : bool :=
  match e with
  | DocdataCreateError _ => true
  | PaymentError args =>
      (fix scan (l : list PyArg) : bool :=
         match l with
         | [] => false
         | a :: l' =>
             match a with
             | ArgExc e' => carries_gateway_error e'
             | ArgStr _ => false
             end || scan l'
         end) args
  | _ => false
  end.

Inductive outcome (A : Type) : Type :=
| Returns (a : A)
| Raises (e : PyExc).
Arguments Returns {A} a.
Arguments Raises {A} e.

(** Expressions are evaluated one after the other; the first exception
    ends the evaluation. *)
Global Instance outcome_ret : MRet outcome := fun A a => Returns a.

Global Instance outcome_bind : MBind outcome := fun A B f r =>
  match r with
  | Returns a => f a
  | Raises e => Raises e
  end.

(** ** Python expressions used by the sources *)

Module Py.

(** Truth value of a string: only the empty string is false. *)
Definition truthy (s : string) : bool :=
  match s with EmptyString => false | String _ _ => true end.

(** [a or b] on strings. *)
Definition or_ (a b : string) : string := if truthy a then a else b.

(** [a or b] where [a] may be [None]. *)
Definition or_opt (a : option string) (b : string) : string :=
  match a with
  | Some s => if truthy s then s else b
  | None => b
  end.

(** [d.get(k, dflt)] *)
Definition dict_get (d : gmap string string) (k dflt : string) : string :=
  match d !! k with Some v => v | None => dflt end.

(** [d.get(k, None)] *)
Definition dict_get_none (d : gmap string string) (k : string) : option string :=
  d !! k.

(** [a or b] where either may be [None]; the result is [None] only when
    [a] is false and [b] is [None]. *)
Definition or_none (a b : option string) : option string :=
  match a with
  | Some s => if truthy s then Some s else b
  | None => b
  end.

(** Text that is cut is kept as Python keeps it, as the sequence of its
    characters (code points), not of its bytes; text that is only
    compared or handed on is kept as a [string]. *)
Definition char : Type := N.
Definition text : Type := list char.

(** The text of a literal written in 7-bit ASCII. *)
Definition ascii_text (s : string) : text :=
  List.map N_of_ascii (String.list_ascii_of_string s).

(** [s[:n]] for a non-negative [n]: the first [n] characters. *)
Fixpoint slice_to (n : nat) (s : text) : text :=
  match n, s with
  | O, _ => []
  | S _, [] => []
  | S n', c :: s' => c :: slice_to n' s'
  end.

(** *** [str.format] with positional arguments

    The replacement fields handled are the positional ones: an explicit
    decimal index [{3}] or an empty, automatically numbered field [{}];
    [{{] and [}}] are the escapes.  Arguments are strings, which format
    as themselves.  The scanner walks the template from left to right and
    stops at the first error, as CPython does:
    - an index past the end of the argument tuple raises [IndexError];
    - an unbalanced brace, or switching between automatic and explicit
      numbering, raises [ValueError].
    Named fields, attribute and item access, conversions and format
    specifications are not covered: [positional_template] tells whether a
    template stays inside the covered fragment, and [format] is to be
    read on such templates only. *)

Inductive numbering : Type :=
| NumUnset
| NumAuto (next : nat)
| NumManual.

Inductive scan_mode : Type :=
| InText
| AfterOpen
| InIndex (n : nat)
| AfterClose.

Definition digit_of (c : ascii) : option nat :=
  let n := nat_of_ascii c in
  if ((48 <=? n) && (n <=? 57))%nat then Some (n - 48)%nat else None.

Definition is_open (c : ascii) : bool := Ascii.eqb c "{".
Definition is_close (c : ascii) : bool := Ascii.eqb c "}".

Definition prepend (c : ascii) (r : outcome string) : outcome string :=
  match r with
  | Returns s => Returns (String c s)
  | Raises e => Raises e
  end.

Definition prepend_str (a : string) (r : outcome string) : outcome string :=
  match r with
  | Returns s => Returns (a ++ s)
  | Raises e => Raises e
  end.

Fixpoint format_from (mode : scan_mode) (num : numbering)
         (template : string) (args : list string) : outcome string :=
  match template with
  | EmptyString =>
      match mode with
      | InText => Returns EmptyString
      | _ => Raises ValueError
      end
  | String c rest =>
      match mode with
      | InText =>
          if is_open c then format_from AfterOpen num rest args
          else if is_close c then format_from AfterClose num rest args
          else prepend c (format_from InText num rest args)
      | AfterOpen =>
          if is_open c then prepend "{" (format_from InText num rest args)
          else if is_close c then
            match num with
            | NumManual => Raises ValueError
            | NumUnset | NumAuto _ =>
                let i := match num with NumAuto k => k | _ => O end in
                match args !! i with
                | Some a => prepend_str a (format_from InText (NumAuto (S i)) rest args)
                | None => Raises IndexError
                end
            end
          else
            match digit_of c with
            | Some d =>
                match num with
                | NumAuto _ => Raises ValueError
                | _ => format_from (InIndex d) NumManual rest args
                end
            | None => Raises ValueError
            end
      | InIndex n =>
          if is_close c then
            match args !! n with
            | Some a => prepend_str a (format_from InText num rest args)
            | None => Raises IndexError
            end
          else
            match digit_of c with
            | Some d => format_from (InIndex (10 * n + d)%nat) num rest args
            | None => Raises ValueError
            end
      | AfterClose =>
          if is_close c then prepend "}" (format_from InText num rest args)
          else Raises ValueError
      end
  end.

(** [template.format(a0, a1, ...)] with positional arguments only. *)
Definition format (template : string) (args : list string) : outcome string :=
  format_from InText NumUnset template args.

(** Every replacement field of the template is positional. *)
Fixpoint positional_from (in_field : bool) (template : string) : bool :=
  match template with
  | EmptyString => true
  | String c rest =>
      if in_field then
        if is_close c then positional_from false rest
        else match digit_of c with
             | Some _ => positional_from true rest
             | None => false
             end
      else
        if is_open c then
          match rest with
          | String c' rest' =>
              if is_open c' then positional_from false rest'
              else positional_from true rest
          | EmptyString => true
          end
        else positional_from false rest
  end.

Definition positional_template (template : string) : bool :=
  positional_from false template.

End Py.

(** ** Configuration

    [oscar_docdata.appsettings] is read, never written, by the code below.
    Its values are taken as given. *)
Record Settings : Type := {
  DOCDATA_PROFILE : string;
  DOCDATA_MERCHANT_NAME : string;
  DOCDATA_ORDER_STATUS_MAPPING : gmap string string;
  OSCAR_ORDER_STATUS_CASCADE : gmap string string
}.

(** ** Stored records *)

(** Amounts are decimals with two places, kept as a number of cents;
    timestamps are seconds. *)

(** A row of Oscar's [order.Order]: the primary key, the two columns the
    facade reads and writes, and the order total standing for the columns
    it never touches. *)
Record Order : Type := {
  order_id : Z;
  order_number : string;
  order_status : string;
  order_total_incl_tax : Z
}.

(** A row of Oscar's [order.Line], reached through [order.lines]. *)
Record Line : Type := {
  line_id : Z;
  line_order_id : Z;
  line_status : string;
  line_quantity : Z
}.

(** A row of Oscar's [payment.SourceType]. *)
Record SourceType : Type := {
  source_type_id : Z;
  source_type_name : string;
  source_type_code : string
}.

(** A row of [oscar_docdata.docdataorder], with the columns of the frozen
    model of migration 0004. *)
Module DocdataOrder.
Record t : Type := {
  id : Z;
  country : option string;
  created : Z;
  currency : string;
  language : string;
  merchant_name : string;
  merchant_order_id : string;
  order_key : string;
  status : string;
  total_acquirer_approved : Z;
  total_acquirer_pending : Z;
  total_captured : Z;
  total_charged_back : Z;
  total_gross_amount : Z;
  total_refunded : Z;
  total_registered : Z;
  total_shopper_pending : Z;
  updated : Z
}.
End DocdataOrder.

(** The tables. *)
Record Store : Type := {
  orders : list Order;
  lines : list Line;
  source_types : list SourceType;
  docdata_orders : list DocdataOrder.t
}.

(** ** Observable effects *)

Inductive Event : Type :=
| EvLinesUpdate (order_pk : Z) (new_status : string)
| EvOrderSave (o : Order)
| EvSourceTypeCreate (s : SourceType)
| EvLog (message : string)
| EvSignal (docdataorder : DocdataOrder.t) (old_status new_status : string).

Definition is_write (e : Event) : bool :=
  match e with
  | EvLinesUpdate _ _ | EvOrderSave _ | EvSourceTypeCreate _ => true
  | EvLog _ | EvSignal _ _ _ => false
  end.

Definition is_signal (e : Event) : bool :=
  match e with EvSignal _ _ _ => true | _ => false end.

(** ** The world and the monad *)

Record World : Type := {
  models_bound : bool;        (* the module globals Order and SourceType are set *)
  store : Store;
  journal : list Event        (* oldest first *)
}.

Definition M (A : Type) : Type := World -> outcome A * World.

Global Instance M_ret : MRet M := fun A a w => (Returns a, w).

Global Instance M_bind : MBind M := fun A B f c w =>
  match c w with
  | (Returns a, w') => f a w'
  | (Raises e, w') => (Raises e, w')
  end.

Definition raise {A} (e : PyExc) : M A := fun w => (Raises e, w).

(** An expression that may raise. *)
Definition eval {A} (r : outcome A) : M A := fun w => (r, w).

(** [try: body  except <catches> as e: handler e] *)
Definition try_except {A} (body : M A) (catches : PyExc -> bool)
           (handler : PyExc -> M A) : M A :=
  fun w =>
    match body w with
    | (Returns a, w') => (Returns a, w')
    | (Raises e, w') => if catches e then handler e w' else (Raises e, w')
    end.

Definition set_store (s : Store) (w : World) : World :=
  {| models_bound := models_bound w; store := s; journal := journal w |}.

Definition record_event (e : Event) (w : World) : World :=
  {| models_bound := models_bound w; store := store w; journal := journal w ++ [e] |}.

(** The events a run added to the journal. *)
Definition emitted (w w' : World) : list Event :=
  drop (length (journal w)) (journal w').

(** ** The ORM operations the facade calls *)

Module ORM.

Definition with_number (number : string) (o : Order) : bool :=
  String.eqb (order_number o) number.

(** [Order.objects.select_for_update().get(number=number)]: the single
    matching row, [DoesNotExist] when there is none and
    [MultipleObjectsReturned] when there are several. *)
Definition Order_get_for_update (number : string) : M Order :=
  fun w =>
    match List.filter (with_number number) (orders (store w)) with
    | [] => (Raises (DoesNotExist "Order"), w)
    | [o] => (Returns o, w)
    | _ :: _ :: _ => (Raises (MultipleObjectsReturned "Order"), w)
    end.

Definition set_line_status (s : string) (l : Line) : Line :=
  {| line_id := line_id l; line_order_id := line_order_id l;
     line_status := s; line_quantity := line_quantity l |}.

Definition update_lines_of (pk : Z) (s : string) (ls : list Line) : list Line :=
  List.map (fun l => if Z.eqb (line_order_id l) pk then set_line_status s l else l) ls.

(** [order.lines.all().update(status=s)]: one UPDATE over the lines whose
    foreign key is the order; no model method or signal runs. *)
Definition lines_update (o : Order) (s : string) : M unit :=
  fun w =>
    let st := store w in
    (Returns tt,
     record_event (EvLinesUpdate (order_id o) s)
       (set_store {| orders := orders st;
                     lines := update_lines_of (order_id o) s (lines st);
                     source_types := source_types st;
                     docdata_orders := docdata_orders st |} w)).

Definition has_pk (pk : Z) (o : Order) : bool := Z.eqb (order_id o) pk.

(** The row with the primary key of [o] becomes [o]; a row is inserted
    when no row has that key. *)
Definition write_order (o : Order) (os : list Order) : list Order :=
  if existsb (has_pk (order_id o)) os
  then List.map (fun r => if has_pk (order_id o) r then o else r) os
  else os ++ [o].

(** [order.save()] *)
Definition Order_save (o : Order) : M unit :=
  fun w =>
    let st := store w in
    (Returns tt,
     record_event (EvOrderSave o)
       (set_store {| orders := write_order o (orders st);
                     lines := lines st;
                     source_types := source_types st;
                     docdata_orders := docdata_orders st |} w)).

Definition with_code (code : string) (s : SourceType) : bool :=
  String.eqb (source_type_code s) code.

(** The key the store gives to a new row: one more than the largest. *)
Definition next_source_type_id (ss : list SourceType) : Z :=
  1 + fold_right Z.max 0 (List.map source_type_id ss).

(** [SourceType.objects.get_or_create(code=code, defaults={'name': name})]:
    the matching row and [False], or a new row and [True]. *)
Definition SourceType_get_or_create (code name : string) : M (SourceType * bool) :=
  fun w =>
    let st := store w in
    match List.filter (with_code code) (source_types st) with
    | [s] => (Returns (s, false), w)
    | _ :: _ :: _ => (Raises (MultipleObjectsReturned "SourceType"), w)
    | [] =>
        let s := {| source_type_id := next_source_type_id (source_types st);
                    source_type_name := name;
                    source_type_code := code |} in
        (Returns (s, true),
         record_event (EvSourceTypeCreate s)
           (set_store {| orders := orders st;
                         lines := lines st;
                         source_types := source_types st ++ [s];
                         docdata_orders := docdata_orders st |} w))
    end.

End ORM.

(** [logging.info(message)] *)
Definition logging_info (message : string) : M unit :=
  fun w => (Returns tt, record_event (EvLog message) w).

(** ** Value objects of the gateway module

    [oscar_docdata.gateway] supplies [Name], [Amount], [Shopper],
    [Destination] and [Address]; each is kept as the record of the
    arguments its constructor is given. *)

Record Name : Type := { first : string; last : string }.

(** [Name(first=..., last=...)]: the constructor of [gateway.Name] requires
    both names; it refuses an empty last name, and then an empty first
    name, with [ValueError]. *)
Definition Name_new (first_name last_name : string) : outcome Name :=
  if negb (Py.truthy last_name) then Raises ValueError
  else if negb (Py.truthy first_name) then Raises ValueError
  else Returns {| first := first_name; last := last_name |}.

Record Amount : Type := { amount_value : Z; amount_currency : string }.

Record Shopper : Type := {
  shopper_id : Z;
  shopper_name : Name;
  shopper_email : string;
  shopper_language : string;
  shopper_gender : string
}.

Record Address : Type := {
  street : Py.text;
  house_number : string;
  house_number_addition : option string;
  postal_code : string;
  city : string;
  state : string;
  country_code : string
}.

Record Destination : Type := {
  destination_name : Name;
  destination_address : Address
}.

(** ** Arguments of the facade *)

(** [oscar.core.prices.Price] *)
Record Price : Type := { incl_tax : Z; price_currency : string }.

Record User : Type := {
  user_id : Z;
  user_first_name : string;
  user_last_name : string;
  user_email : string
}.

(** [oscar.apps.order.models.BillingAddress] *)
Record BillingAddress : Type := {
  ba_first_name : string;
  ba_last_name : string;
  line1 : Py.text;
  postcode : string;
  ba_city : string;
  ba_state : string;
  country_id : string
}.

(** The parameters shared by [create_payment] and
    [get_create_payment_args].  Of the extra keyword arguments only
    [billingaddress] is ever read, so [kwargs] maps keywords to billing
    addresses. *)
Record PaymentCall : Type := {
  call_order_number : string;
  call_total : Price;
  call_user : User;
  call_language : option string;
  call_description : option string;
  call_profile : option string;
  call_kwargs : gmap string BillingAddress
}.

Definition with_profile (profile : string) (c : PaymentCall) : PaymentCall :=
  {| call_order_number := call_order_number c;
     call_total := call_total c;
     call_user := call_user c;
     call_language := call_language c;
     call_description := call_description c;
     call_profile := Some profile;
     call_kwargs := call_kwargs c |}.

(** The dictionary returned by [get_create_payment_args]. *)
Record CreatePaymentArgs : Type := {
  arg_order_id : string;
  arg_total_gross_amount : Amount;
  arg_shopper : Shopper;
  arg_bill_to : Destination;
  arg_description : option string;
  arg_profile : string
}.

(** ** The facade *)

Definition set_order_status (s : string) (o : Order) : Order :=
  {| order_id := order_id o; order_number := order_number o;
     order_status := s; order_total_incl_tax := order_total_incl_tax o |}.

(** [_lazy_get_models()]: binds the two model classes on first use. *)
Definition _lazy_get_models : M unit :=
  fun w =>
    (Returns tt,
     if models_bound w then w
     else {| models_bound := true; store := store w; journal := journal w |}).

(** Modelled from the spec: [Interface.order_status_changed], the method of
    the parent class that [Facade.order_status_changed] ends with, lives in
    [oscar_docdata/interface.py]; it emits the order-status-changed
    notification for the subscribers, with the arguments it is given. *)
Definition Interface_order_status_changed
           (docdataorder : DocdataOrder.t) (old_status new_status : string) : M unit :=
  fun w => (Returns tt, record_event (EvSignal docdataorder old_status new_status) w).

Section Facade.

Variable appsettings : Settings.

(** [django.utils.translation.get_language()]: the active language, or
    [None] when translations are switched off. *)
Variable get_language : option string.

(** [oscar_docdata.gateway.to_iso639_part1], which may raise, and is also
    handed [None] when there is no language at all. *)
Variable to_iso639_part1 : option string -> outcome string.

(** [Interface.create_payment], the method of the parent class that
    starts the payment session at the gateway. *)
Variable Interface_create_payment : PaymentCall -> M string.

Definition create_payment (call : PaymentCall) : M string :=
  let profile := Py.or_opt (call_profile call) (DOCDATA_PROFILE appsettings) in
  order_key ← try_except
                (Interface_create_payment (with_profile profile call))
                is_DocdataCreateError
                (fun e => raise (PaymentError [ArgStr (exc_value e); ArgExc e]));
  mret order_key.

Definition get_create_payment_args (call : PaymentCall) : outcome CreatePaymentArgs :=
  match call_kwargs call !! "billingaddress" with
  | None => Raises (KeyError "billingaddress")
  | Some billingaddress =>
      let user := call_user call in
      let total := call_total call in
      let profile := Py.or_opt (call_profile call) (DOCDATA_PROFILE appsettings) in
      shopper_name ← Name_new (user_first_name user) (user_last_name user);
      bill_to_name ← Name_new
                       (Py.or_ (ba_first_name billingaddress) (user_first_name user))
                       (Py.or_ (ba_last_name billingaddress) (user_last_name user));
      language ← to_iso639_part1 (Py.or_none (call_language call) get_language);
      mret
        {| arg_order_id := call_order_number call;
           arg_total_gross_amount :=
             {| amount_value := incl_tax total;
                amount_currency := price_currency total |};
           arg_shopper :=
             {| shopper_id := user_id user;
                shopper_name := shopper_name;
                shopper_email := user_email user;
                shopper_language := language;
                shopper_gender := "U" |};
           arg_bill_to :=
             {| destination_name := bill_to_name;
                destination_address :=
                  {| street := Py.slice_to 32 (line1 billingaddress);
                     house_number := "N/A";
                     house_number_addition := None;
                     postal_code := postcode billingaddress;
                     city := ba_city billingaddress;
                     state := ba_state billingaddress;
                     country_code := country_id billingaddress |} |};
           arg_description := call_description call;
           arg_profile := profile |}
  end.

(** [appsettings.DOCDATA_ORDER_STATUS_MAPPING.get(new_status, new_status)] *)
Definition project_status_of (new_status : string) : string :=
  Py.dict_get (DOCDATA_ORDER_STATUS_MAPPING appsettings) new_status new_status.

(** [appsettings.OSCAR_ORDER_STATUS_CASCADE.get(project_status, None)] *)
Definition cascade_of (project_status : string) : option string :=
  Py.dict_get_none (OSCAR_ORDER_STATUS_CASCADE appsettings) project_status.

Definition order_status_changed
           (docdataorder : DocdataOrder.t) (old_status new_status : string) : M unit :=
  _lazy_get_models ;;
  let project_status := project_status_of new_status in
  let cascade := cascade_of project_status in
  order ← ORM.Order_get_for_update (DocdataOrder.merchant_order_id docdataorder);
  if String.eqb (order_status order) project_status then
    message ← eval (Py.format "Order {0} status is already {1}, skipping signal."
                              [order_number order]);
    logging_info message ;;
    mret tt
  else
    let order := set_order_status project_status order in
    match cascade with
    | Some line_status =>
        if Py.truthy line_status then ORM.lines_update order line_status else mret tt
    | None => mret tt
    end ;;
    ORM.Order_save order ;;
    Interface_order_status_changed docdataorder old_status new_status.

Definition get_source_type : M SourceType :=
  _lazy_get_models ;;
  '(source_type, _) ← ORM.SourceType_get_or_create "docdata" "Docdata Payments";
  mret source_type.

End Facade.

(** ** Migration 0004: fill the merchant name *)

Module Migration.

Definition set_merchant_name (name : string) (r : DocdataOrder.t) : DocdataOrder.t :=
  {| DocdataOrder.id := DocdataOrder.id r;
     DocdataOrder.country := DocdataOrder.country r;
     DocdataOrder.created := DocdataOrder.created r;
     DocdataOrder.currency := DocdataOrder.currency r;
     DocdataOrder.language := DocdataOrder.language r;
     DocdataOrder.merchant_name := name;
     DocdataOrder.merchant_order_id := DocdataOrder.merchant_order_id r;
     DocdataOrder.order_key := DocdataOrder.order_key r;
     DocdataOrder.status := DocdataOrder.status r;
     DocdataOrder.total_acquirer_approved := DocdataOrder.total_acquirer_approved r;
     DocdataOrder.total_acquirer_pending := DocdataOrder.total_acquirer_pending r;
     DocdataOrder.total_captured := DocdataOrder.total_captured r;
     DocdataOrder.total_charged_back := DocdataOrder.total_charged_back r;
     DocdataOrder.total_gross_amount := DocdataOrder.total_gross_amount r;
     DocdataOrder.total_refunded := DocdataOrder.total_refunded r;
     DocdataOrder.total_registered := DocdataOrder.total_registered r;
     DocdataOrder.total_shopper_pending := DocdataOrder.total_shopper_pending r;
     DocdataOrder.updated := DocdataOrder.updated r |}.

(** [.filter(merchant_name='')] as a row predicate. *)
Definition merchant_name_blank (r : DocdataOrder.t) : bool :=
  String.eqb (DocdataOrder.merchant_name r) "".

(** [objects.filter(merchant_name='').update(merchant_name=name)]: one
    UPDATE statement over the selected rows; [save] is not called, so the
    [auto_now] column [updated] keeps its value. *)
Definition filter_update (name : string) (rows : list DocdataOrder.t) : list DocdataOrder.t :=
  List.map (fun r => if merchant_name_blank r then set_merchant_name name r else r) rows.

Definition forwards (appsettings : Settings) (st : Store) : Store :=
  {| orders := orders st;
     lines := lines st;
     source_types := source_types st;
     docdata_orders := filter_update (DOCDATA_MERCHANT_NAME appsettings) (docdata_orders st) |}.

Definition backwards (st : Store) : Store := st.

End Migration.

(** ** Situations of a status notification *)

(** The merchant order number designates exactly the row [o]. *)
Definition finds (w : World) (number : string) (o : Order) : Prop :=
  List.filter (ORM.with_number number) (orders (store w)) = [o].

(** No order row carries the number. *)
Definition unknown_order (w : World) (number : string) : Prop :=
  List.filter (ORM.with_number number) (orders (store w)) = [].

(** The primary key of the order table. *)
Definition primary_keys_unique (w : World) : Prop :=
  NoDup (List.map order_id (orders (store w))).

(** The world once the model classes are bound. *)
Definition bound (w : World) : World :=
  {| models_bound := true; store := store w; journal := journal w |}.

(** The lines of an order, in table order. *)
Definition lines_of (pk : Z) (w : World) : list Line :=
  List.filter (fun l => Z.eqb (line_order_id l) pk) (lines (store w)).

(** The lines table after the forced update for project status [ps]. *)
Definition cascaded_lines (cfg : Settings) (ps : string) (o : Order)
           (ls : list Line) : list Line :=
  match cascade_of cfg ps with
  | Some c => if Py.truthy c then ORM.update_lines_of (order_id o) c ls else ls
  | None => ls
  end.

Definition cascade_events (cfg : Settings) (ps : string) (o : Order) : list Event :=
  match cascade_of cfg ps with
  | Some c => if Py.truthy c then [EvLinesUpdate (order_id o) c] else []
  | None => []
  end.

(** The tables once the order [o] has been moved to [ps]. *)
Definition applied_store (cfg : Settings) (ps : string) (o : Order) (st : Store) : Store :=
  {| orders := ORM.write_order (set_order_status ps o) (orders st);
     lines := cascaded_lines cfg ps o (lines st);
     source_types := source_types st;
     docdata_orders := docdata_orders st |}.

(** The world just before the notification is sent. *)
Definition persisted_world (cfg : Settings) (ps : string) (o : Order) (w : World) : World :=
  {| models_bound := true;
     store := applied_store cfg ps o (store w);
     journal := (journal w ++ cascade_events cfg ps o
                   ++ [EvOrderSave (set_order_status ps o)])%list |}.

(** ** Sample data *)

Module Sample.

Definition settings : Settings :=
  {| DOCDATA_PROFILE := "standard";
     DOCDATA_MERCHANT_NAME := "webshop_nl";
     DOCDATA_ORDER_STATUS_MAPPING :=
       {[ "paid" := "Paid"; "cancelled" := "Cancelled" ]};
     OSCAR_ORDER_STATUS_CASCADE :=
       {[ "Paid" := "Being processed"; "Cancelled" := "Cancelled" ]} |}.

Definition docdataorder_for (number : string) : DocdataOrder.t :=
  {| DocdataOrder.id := 7;
     DocdataOrder.country := Some "NL";
     DocdataOrder.created := 1400000000;
     DocdataOrder.currency := "EUR";
     DocdataOrder.language := "nl";
     DocdataOrder.merchant_name := "";
     DocdataOrder.merchant_order_id := number;
     DocdataOrder.order_key := "4F1A9C";
     DocdataOrder.status := "paid";
     DocdataOrder.total_acquirer_approved := 2500;
     DocdataOrder.total_acquirer_pending := 0;
     DocdataOrder.total_captured := 2500;
     DocdataOrder.total_charged_back := 0;
     DocdataOrder.total_gross_amount := 2500;
     DocdataOrder.total_refunded := 0;
     DocdataOrder.total_registered := 2500;
     DocdataOrder.total_shopper_pending := 0;
     DocdataOrder.updated := 1400000300 |}.

Definition docdataorder : DocdataOrder.t := docdataorder_for "100042".

(** A notification for an order number the shop does not have. *)
Definition stray_docdataorder : DocdataOrder.t := docdataorder_for "999999".

Definition named_docdataorder : DocdataOrder.t :=
  {| DocdataOrder.id := 8;
     DocdataOrder.country := None;
     DocdataOrder.created := 1400000500;
     DocdataOrder.currency := "EUR";
     DocdataOrder.language := "en";
     DocdataOrder.merchant_name := "other_shop";
     DocdataOrder.merchant_order_id := "100043";
     DocdataOrder.order_key := "77B2D0";
     DocdataOrder.status := "new";
     DocdataOrder.total_acquirer_approved := 0;
     DocdataOrder.total_acquirer_pending := 0;
     DocdataOrder.total_captured := 0;
     DocdataOrder.total_charged_back := 0;
     DocdataOrder.total_gross_amount := 1000;
     DocdataOrder.total_refunded := 0;
     DocdataOrder.total_registered := 0;
     DocdataOrder.total_shopper_pending := 0;
     DocdataOrder.updated := 1400000500 |}.

Definition pending_order : Order :=
  {| order_id := 1; order_number := "100042";
     order_status := "Pending"; order_total_incl_tax := 2500 |}.

Definition paid_order : Order :=
  {| order_id := 1; order_number := "100042";
     order_status := "Paid"; order_total_incl_tax := 2500 |}.

Definition other_order : Order :=
  {| order_id := 2; order_number := "100043";
     order_status := "Pending"; order_total_incl_tax := 1000 |}.

Definition line (pk fk : Z) (s : string) : Line :=
  {| line_id := pk; line_order_id := fk; line_status := s; line_quantity := 1 |}.

Definition tables (o : Order) : Store :=
  {| orders := [o; other_order];
     lines := [line 1 1 "Pending"; line 2 1 "Pending"; line 3 2 "Pending"];
     source_types := [];
     docdata_orders := [docdataorder; named_docdataorder] |}.

(** The order is still pending. *)
Definition pending_world : World :=
  {| models_bound := true; store := tables pending_order; journal := [] |}.

(** The callback has already marked the order as paid. *)
Definition paid_world : World :=
  {| models_bound := true; store := tables paid_order; journal := [] |}.

(** A cascade table whose entry for [Paid] is the empty line status. *)
Definition blank_cascade_settings : Settings :=
  {| DOCDATA_PROFILE := "standard";
     DOCDATA_MERCHANT_NAME := "webshop_nl";
     DOCDATA_ORDER_STATUS_MAPPING := {[ "paid" := "Paid" ]};
     OSCAR_ORDER_STATUS_CASCADE := {[ "Paid" := "" ]} |}.

(** The statuses of the project's order pipeline. *)
Definition pipeline_status (s : string) : bool :=
  bool_decide (s ∈ ["Pending"; "Being processed"; "Paid"; "Cancelled"]).

(** A cascade table with an entry for a status outside the pipeline. *)
Definition stray_cascade_settings : Settings :=
  {| DOCDATA_PROFILE := "standard";
     DOCDATA_MERCHANT_NAME := "webshop_nl";
     DOCDATA_ORDER_STATUS_MAPPING := {[ "paid" := "Paid" ]};
     OSCAR_ORDER_STATUS_CASCADE :=
       {[ "Cancelled" := "Cancelled"; "chargedback" := "Cancelled" ]} |}.

Definition shopper : User :=
  {| user_id := 12; user_first_name := "Anna"; user_last_name := "de Vries";
     user_email := "anna@example.org" |}.

Definition billingaddress : BillingAddress :=
  {| ba_first_name := "";
     ba_last_name := "Jansen";
     line1 := Py.ascii_text "Burgemeester van Roijensingel 1234 bis";
     postcode := "8011 CT";
     ba_city := "Zwolle";
     ba_state := "";
     country_id := "NL" |}.

Definition call : PaymentCall :=
  {| call_order_number := "100042";
     call_total := {| incl_tax := 2500; price_currency := "EUR" |};
     call_user := shopper;
     call_language := None;
     call_description := Some "Order 100042";
     call_profile := None;
     call_kwargs := {[ "billingaddress" := billingaddress ]} |}.

(** A gateway that rejects the session. *)
Definition rejecting_gateway : PaymentCall -> M string :=
  fun _ => raise (DocdataCreateError "REQUEST_DATA_INCORRECT").

(** A gateway that opens the session. *)
Definition accepting_gateway : PaymentCall -> M string :=
  fun c w => (Returns ("KEY" ++ call_order_number c), w).

End Sample.

(** ** Statements about the cascade, as first put *)

(** Whenever the cascade table has an entry for the new project status,
    every line of the order ends with the status of that entry; without
    entry the line statuses stay as they were. *)
Definition cascade_reaches_every_line (cfg : Settings) (d : DocdataOrder.t)
           (old new : string) (w : World) : Prop :=
  forall o,
    finds w (DocdataOrder.merchant_order_id d) o ->
    order_status o <> project_status_of cfg new ->
    let w' := (order_status_changed cfg d old new w).2 in
    match cascade_of cfg (project_status_of cfg new) with
    | Some c => Forall (fun l => line_status l = c) (lines_of (order_id o) w')
    | None => lines (store w') = lines (store w)
    end.

(** A project status outside the recognized statuses is stored as it is and
    no line is modified. *)
Definition unrecognized_status_skips_cascade (recognized : string -> bool)
           (cfg : Settings) (d : DocdataOrder.t) (old new : string) (w : World) : Prop :=
  forall o,
    finds w (DocdataOrder.merchant_order_id d) o ->
    recognized (project_status_of cfg new) = false ->
    let w' := (order_status_changed cfg d old new w).2 in
    (exists o', finds w' (DocdataOrder.merchant_order_id d) o' /\
                order_status o' = project_status_of cfg new) /\
    lines (store w') = lines (store w).

(** ** Statement about session creation, as first put *)

(** The profile handed to the gateway: the given one unless it is empty. *)
Definition profile_of (cfg : Settings) (call : PaymentCall) : string :=
  Py.or_opt (call_profile call) (DOCDATA_PROFILE cfg).

(** A creation error of the gateway reaches the caller as a [PaymentError]
    that holds no gateway error, and a session key is handed through. *)
Definition creation_error_is_hidden (cfg : Settings)
           (gateway : PaymentCall -> M string) (call : PaymentCall) (w : World) : Prop :=
  let inner := gateway (with_profile (profile_of cfg call) call) w in
  (forall v w1,
      inner = (Raises (DocdataCreateError v), w1) ->
      exists args,
        create_payment cfg gateway call w = (Raises (PaymentError args), w1) /\
        carries_gateway_error (PaymentError args) = false) /\
  (forall key w1,
      inner = (Returns key, w1) ->
      create_payment cfg gateway call w = (Returns key, w1)).

(** ** Rows compared *)

(** The source types whose code is that of Docdata. *)
Definition docdata_source_types (w : World) : list SourceType :=
  List.filter (ORM.with_code "docdata") (source_types (store w)).

(** Two rows of [docdataorder] agree on every column other than
    [merchant_name]. *)
Definition same_but_merchant_name (r r' : DocdataOrder.t) : Prop :=
  DocdataOrder.id r' = DocdataOrder.id r /\
  DocdataOrder.country r' = DocdataOrder.country r /\
  DocdataOrder.created r' = DocdataOrder.created r /\
  DocdataOrder.currency r' = DocdataOrder.currency r /\
  DocdataOrder.language r' = DocdataOrder.language r /\
  DocdataOrder.merchant_order_id r' = DocdataOrder.merchant_order_id r /\
  DocdataOrder.order_key r' = DocdataOrder.order_key r /\
  DocdataOrder.status r' = DocdataOrder.status r /\
  DocdataOrder.total_acquirer_approved r' = DocdataOrder.total_acquirer_approved r /\
  DocdataOrder.total_acquirer_pending r' = DocdataOrder.total_acquirer_pending r /\
  DocdataOrder.total_captured r' = DocdataOrder.total_captured r /\
  DocdataOrder.total_charged_back r' = DocdataOrder.total_charged_back r /\
  DocdataOrder.total_gross_amount r' = DocdataOrder.total_gross_amount r /\
  DocdataOrder.total_refunded r' = DocdataOrder.total_refunded r /\
  DocdataOrder.total_registered r' = DocdataOrder.total_registered r /\
  DocdataOrder.total_shopper_pending r' = DocdataOrder.total_shopper_pending r /\
  DocdataOrder.updated r' = DocdataOrder.updated r.

(** ** Further situations and sample data *)

(** Several order rows carry the number. *)
Definition ambiguous_order (w : World) (number : string) : Prop :=
  (2 <= length (List.filter (ORM.with_number number) (orders (store w))))%nat.

Definition is_log (e : Event) : bool :=
  match e with EvLog _ => true | _ => false end.

(** The same call with other extra keyword arguments. *)
Definition with_kwargs (kwargs : gmap string BillingAddress) (c : PaymentCall) : PaymentCall :=
  {| call_order_number := call_order_number c;
     call_total := call_total c;
     call_user := call_user c;
     call_language := call_language c;
     call_description := call_description c;
     call_profile := call_profile c;
     call_kwargs := kwargs |}.

(** No two source types share a code. *)
Definition codes_unique (w : World) : Prop :=
  NoDup (List.map source_type_code (source_types (store w))).

(** The [docdataorder] rows that the migration has to fill. *)
Definition blank_rows (st : Store) : list DocdataOrder.t :=
  List.filter Migration.merchant_name_blank (docdata_orders st).

(** The four ways a run can go. *)
Inductive run_shape cfg d (old new : string) (w : World) : Prop :=
| RunUnknown :
    unknown_order w (DocdataOrder.merchant_order_id d) ->
    order_status_changed cfg d old new w = (Raises (DoesNotExist "Order"), bound w) ->
    run_shape cfg d old new w
| RunAmbiguous :
    ambiguous_order w (DocdataOrder.merchant_order_id d) ->
    order_status_changed cfg d old new w
    = (Raises (MultipleObjectsReturned "Order"), bound w) ->
    run_shape cfg d old new w
| RunDuplicate (o : Order) :
    finds w (DocdataOrder.merchant_order_id d) o ->
    order_status o = project_status_of cfg new ->
    order_status_changed cfg d old new w = (Raises IndexError, bound w) ->
    run_shape cfg d old new w
| RunApplied (o : Order) :
    finds w (DocdataOrder.merchant_order_id d) o ->
    order_status o <> project_status_of cfg new ->
    order_status_changed cfg d old new w
    = (Returns tt,
       record_event (EvSignal d old new)
         (persisted_world cfg (project_status_of cfg new) o w)) ->
    run_shape cfg d old new w.

Module Scenario.

(** A second order row that was given the number 100042 as well. *)
Definition twin_order : Order :=
  {| order_id := 3; order_number := "100042";
     order_status := "Cancelled"; order_total_incl_tax := 400 |}.

Definition twin_world : World :=
  {| models_bound := false;
     store := {| orders := [Sample.pending_order; Sample.other_order; twin_order];
                 lines := [Sample.line 1 1 "Pending"; Sample.line 4 3 "Cancelled"];
                 source_types := [];
                 docdata_orders := [Sample.docdataorder] |};
     journal := [] |}.

Definition docdata_type : SourceType :=
  {| source_type_id := 4; source_type_name := "Docdata";
     source_type_code := "docdata" |}.

Definition voucher_type : SourceType :=
  {| source_type_id := 2; source_type_name := "Voucher";
     source_type_code := "voucher" |}.

Definition with_source_types (ss : list SourceType) : World :=
  {| models_bound := false;
     store := {| orders := [Sample.pending_order];
                 lines := [Sample.line 1 1 "Pending"];
                 source_types := ss;
                 docdata_orders := [Sample.docdataorder] |};
     journal := [] |}.

(** A stand-in for [to_iso639_part1]: the part of the language code before
    the first hyphen; a missing language has no such part. *)
Fixpoint before_hyphen (code : string) : string :=
  match code with
  | EmptyString => EmptyString
  | String c rest =>
      if Ascii.eqb c "-" then EmptyString else String c (before_hyphen rest)
  end.

Definition language_part (code : option string) : outcome string :=
  match code with
  | Some c => Returns (before_hyphen c)
  | None => Raises (AttributeError "split")
  end.

(** An address line of 33 characters, four of them outside ASCII:
    [Große Bäckerstraße 12, Hinterhöfe]. *)
Definition umlaut_line : Py.text :=
  (Py.ascii_text "Gro" ++ [223%N] ++ Py.ascii_text "e B" ++ [228%N]
   ++ Py.ascii_text "ckerstra" ++ [223%N] ++ Py.ascii_text "e 12, Hinterh"
   ++ [246%N] ++ Py.ascii_text "fe")%list.

Definition umlaut_address : BillingAddress :=
  {| ba_first_name := "J"; ba_last_name := "";
     line1 := umlaut_line; postcode := "20095"; ba_city := "Hamburg";
     ba_state := ""; country_id := "DE" |}.

(** A user who has not filled in a name. *)
Definition nameless_user : User :=
  {| user_id := 13; user_first_name := ""; user_last_name := "";
     user_email := "guest@example.org" |}.

Definition with_user (u : User) (c : PaymentCall) : PaymentCall :=
  {| call_order_number := call_order_number c;
     call_total := call_total c;
     call_user := u;
     call_language := call_language c;
     call_description := call_description c;
     call_profile := call_profile c;
     call_kwargs := call_kwargs c |}.

(** A gateway whose connection fails: not a creation error. *)
Definition unreachable_gateway : PaymentCall -> M string :=
  fun _ => raise (KeyError "endpoint").

(** The Docdata order of the same merchant order, read after the merchant
    name was filled in. *)
Definition redirect_docdataorder : DocdataOrder.t :=
  Migration.set_merchant_name "webshop_nl" (Sample.docdataorder_for "100042").

End Scenario.

(** * Properties *)

(** ** The Python expressions on small inputs *)

Example format_two_fields :
  Py.format "{0} is {1}" ["status"; "paid"] = Returns "status is paid".
Proof. reflexivity. Qed.

Example format_auto_fields :
  Py.format "{} is {}{{}}" ["status"; "paid"] = Returns "status is paid{}".
Proof. reflexivity. Qed.

Example format_missing_argument :
  Py.format "{0} is {1}" ["status"] = Raises IndexError.
Proof. reflexivity. Qed.

Example format_single_brace : Py.format "a } b" [] = Raises ValueError.
Proof. reflexivity. Qed.

Example format_switch_to_auto : Py.format "{0} {}" ["a"; "b"] = Raises ValueError.
Proof. reflexivity. Qed.

Example format_switch_to_manual : Py.format "{} {0}" ["a"; "b"] = Raises ValueError.
Proof. reflexivity. Qed.

Example format_first_error_wins : Py.format "{1} }" ["a"] = Raises IndexError.
Proof. reflexivity. Qed.

Example format_unclosed_field : Py.format "x{0" ["a"] = Raises ValueError.
Proof. reflexivity. Qed.

Example slice_to_short :
  Py.slice_to 32 (Py.ascii_text "Main St") = Py.ascii_text "Main St".
Proof. reflexivity. Qed.

Example slice_to_long :
  Py.slice_to 32 (Py.ascii_text "Burgemeester van Roijensingel 1234 bis")
  = Py.ascii_text "Burgemeester van Roijensingel 12".
Proof. reflexivity. Qed.

Example slice_to_counts_characters :
  length Scenario.umlaut_line = 33%nat /\
  Py.slice_to 32 Scenario.umlaut_line
  = (Py.ascii_text "Gro" ++ [223%N] ++ Py.ascii_text "e B" ++ [228%N]
     ++ Py.ascii_text "ckerstra" ++ [223%N] ++ Py.ascii_text "e 12, Hinterh"
     ++ [246%N] ++ Py.ascii_text "f")%list.
Proof. split; reflexivity. Qed.

Example name_needs_both_parts :
  Name_new "" "Jansen" = Raises ValueError /\
  Name_new "Anna" "" = Raises ValueError /\
  Name_new "Anna" "Jansen" = Returns {| first := "Anna"; last := "Jansen" |}.
Proof. repeat split. Qed.

Example skip_template_is_positional :
  Py.positional_template "Order {0} status is already {1}, skipping signal." = true.
Proof. reflexivity. Qed.


(** ** The monad *)

Lemma bind_returns {A B} (c : M A) (f : A -> M B) (w w' : World) (a : A) :
  c w = (Returns a, w') -> (c ≫= f) w = f a w'.
Proof. intros H. unfold mbind, M_bind. rewrite H. reflexivity. Qed.

Lemma bind_raises {A B} (c : M A) (f : A -> M B) (w w' : World) (e : PyExc) :
  c w = (Raises e, w') -> (c ≫= f) w = (Raises e, w').
Proof. intros H. unfold mbind, M_bind. rewrite H. reflexivity. Qed.

Lemma emitted_app (w w' : World) (es : list Event) :
  journal w' = (journal w ++ es)%list -> emitted w w' = es.
Proof. intros H. unfold emitted. rewrite H. apply drop_app_length. Qed.

Lemma emitted_same (w w' : World) :
  journal w' = journal w -> emitted w w' = [].
Proof.
  intros H. apply emitted_app. rewrite H. symmetry. apply app_nil_r.
Qed.

(** ** The primitives *)

Lemma lazy_get_models_spec (w : World) :
  _lazy_get_models w = (Returns tt, bound w).
Proof.
  unfold _lazy_get_models, bound. destruct w as [b st j]. simpl.
  destruct b; reflexivity.
Qed.

Lemma get_for_update_finds (w : World) (number : string) (o : Order) :
  finds w number o -> ORM.Order_get_for_update number w = (Returns o, w).
Proof. unfold finds, ORM.Order_get_for_update. intros H. rewrite H. reflexivity. Qed.

Lemma get_for_update_unknown (w : World) (number : string) :
  unknown_order w number ->
  ORM.Order_get_for_update number w = (Raises (DoesNotExist "Order"), w).
Proof.
  unfold unknown_order, ORM.Order_get_for_update. intros H. rewrite H. reflexivity.
Qed.

Lemma skip_message_raises (number : string) :
  Py.format "Order {0} status is already {1}, skipping signal." [number]
  = Raises IndexError.
Proof. reflexivity. Qed.

(** ** The three ways a status notification can go *)

Section Notification.

Variable cfg : Settings.
Variable d : DocdataOrder.t.
Variables old new : string.

Let number := DocdataOrder.merchant_order_id d.
Let ps := project_status_of cfg new.

Lemma order_status_changed_unknown (w : World) :
  unknown_order w number ->
  order_status_changed cfg d old new w = (Raises (DoesNotExist "Order"), bound w).
Proof.
  intros H. unfold order_status_changed.
  rewrite (bind_returns _ _ _ _ _ (lazy_get_models_spec w)).
  apply bind_raises. apply get_for_update_unknown. exact H.
Qed.

Lemma order_status_changed_duplicate (w : World) (o : Order) :
  finds w number o ->
  order_status o = ps ->
  order_status_changed cfg d old new w = (Raises IndexError, bound w).
Proof.
  intros Hf Hs. unfold order_status_changed.
  rewrite (bind_returns _ _ _ _ _ (lazy_get_models_spec w)).
  rewrite (bind_returns _ _ (bound w) (bound w) o).
  - fold ps. rewrite Hs, String.eqb_refl.
    apply bind_raises. rewrite skip_message_raises. reflexivity.
  - apply get_for_update_finds. exact Hf.
Qed.

Lemma order_status_changed_persists (w : World) (o : Order) :
  finds w number o ->
  order_status o <> ps ->
  order_status_changed cfg d old new w
  = Interface_order_status_changed d old new (persisted_world cfg ps o w).
Proof.
  intros Hf Hs. unfold order_status_changed.
  rewrite (bind_returns _ _ _ _ _ (lazy_get_models_spec w)).
  rewrite (bind_returns _ _ (bound w) (bound w) o)
    by (apply get_for_update_finds; exact Hf).
  fold ps. apply String.eqb_neq in Hs. rewrite Hs.
  unfold persisted_world, applied_store, cascaded_lines, cascade_events.
  destruct (cascade_of cfg ps) as [c|]; [destruct (Py.truthy c)|];
    unfold mbind, M_bind; simpl; f_equal;
    unfold record_event, set_store, bound; simpl;
    rewrite <- ?app_assoc, ?app_nil_r; reflexivity.
Qed.

End Notification.

(** ** Status mapping *)

Lemma order_status_changed_applied cfg d old new (w : World) (o : Order) :
  finds w (DocdataOrder.merchant_order_id d) o ->
  order_status o <> project_status_of cfg new ->
  order_status_changed cfg d old new w
  = (Returns tt,
     record_event (EvSignal d old new)
       (persisted_world cfg (project_status_of cfg new) o w)).
Proof.
  intros Hf Hs. rewrite (order_status_changed_persists cfg d old new w o Hf Hs).
  reflexivity.
Qed.

Lemma emitted_applied cfg d old new (w : World) (o : Order) :
  emitted w (record_event (EvSignal d old new)
               (persisted_world cfg (project_status_of cfg new) o w))
  = (cascade_events cfg (project_status_of cfg new) o
       ++ [EvOrderSave (set_order_status (project_status_of cfg new) o)]
       ++ [EvSignal d old new])%list.
Proof.
  apply emitted_app. simpl. rewrite <- !app_assoc. reflexivity.
Qed.

(** C2. The status mapping used by [order_status_changed] is fail-open: an
    external status with an entry in the configured mapping table is
    replaced by that entry, an external status without entry is passed
    through unchanged; and that mapped value is the status with which the
    order is saved. *)
Theorem status_mapping_fail_open (cfg : Settings) (external : string) :
  (forall internal,
      DOCDATA_ORDER_STATUS_MAPPING cfg !! external = Some internal ->
      project_status_of cfg external = internal) /\
  (DOCDATA_ORDER_STATUS_MAPPING cfg !! external = None ->
      project_status_of cfg external = external) /\
  (forall d old w o,
      finds w (DocdataOrder.merchant_order_id d) o ->
      order_status o <> project_status_of cfg external ->
      In (EvOrderSave (set_order_status (project_status_of cfg external) o))
         (emitted w (order_status_changed cfg d old external w).2)).
Proof.
  split; [|split].
  - intros internal H. unfold project_status_of, Py.dict_get. rewrite H. reflexivity.
  - intros H. unfold project_status_of, Py.dict_get. rewrite H. reflexivity.
  - intros d old w o Hf Hs.
    rewrite (order_status_changed_applied cfg d old external w o Hf Hs).
    cbn [snd]. rewrite emitted_applied.
    apply in_or_app. right. left. reflexivity.
Qed.

Lemma status_mapping_fail_open_witness :
  project_status_of Sample.settings "paid" = "Paid" /\
  project_status_of Sample.settings "authorized" = "authorized" /\
  In (EvOrderSave Sample.paid_order)
     (emitted Sample.pending_world
        (order_status_changed Sample.settings Sample.docdataorder "new" "paid"
           Sample.pending_world).2).
Proof.
  split; [|split].
  - apply (proj1 (status_mapping_fail_open Sample.settings "paid")). reflexivity.
  - apply (proj1 (proj2 (status_mapping_fail_open Sample.settings "authorized"))).
    reflexivity.
  - apply (proj2 (proj2 (status_mapping_fail_open Sample.settings "paid"))
             Sample.docdataorder "new" Sample.pending_world Sample.pending_order).
    + reflexivity.
    + vm_compute. discriminate.
Defined.

(** ** Duplicate deliveries *)

(** C1. A notification whose mapped status the order already has: the order
    100042 is stored as [Paid] and the gateway reports [paid] once more.
    The run does not come back normally: building the log message raises
    [IndexError], because the template has two fields and [format] is given
    one argument.  Nothing is logged, no signal is sent, and the tables are
    as before. *)
Theorem duplicate_notification_raises_IndexError :
  order_status_changed Sample.settings Sample.docdataorder "new" "paid"
    Sample.paid_world
  = (Raises IndexError, Sample.paid_world).
Proof. vm_compute. reflexivity. Qed.

(** The same on every duplicate delivery. *)
Lemma duplicate_notification_never_returns cfg d old new (w : World) (o : Order) :
  finds w (DocdataOrder.merchant_order_id d) o ->
  order_status o = project_status_of cfg new ->
  exists w',
    order_status_changed cfg d old new w = (Raises IndexError, w') /\
    store w' = store w /\ journal w' = journal w.
Proof.
  intros Hf Hs. exists (bound w). split; [|split; reflexivity].
  apply order_status_changed_duplicate with (o := o); assumption.
Qed.

(** ** Unknown orders *)

(** C6. When no order row carries the merchant order number of the
    notification, [order_status_changed] fails with the lookup error
    [DoesNotExist]; the tables are exactly as before and nothing was
    written, logged or signalled. *)
Theorem unknown_order_is_not_found cfg d old new (w : World) :
  unknown_order w (DocdataOrder.merchant_order_id d) ->
  exists w',
    order_status_changed cfg d old new w = (Raises (DoesNotExist "Order"), w') /\
    store w' = store w /\
    journal w' = journal w.
Proof.
  intros H. exists (bound w). split; [|split; reflexivity].
  apply order_status_changed_unknown. exact H.
Qed.

Lemma unknown_order_is_not_found_witness :
  unknown_order Sample.pending_world "999999" /\
  exists w',
    order_status_changed Sample.settings Sample.stray_docdataorder "new" "paid"
      Sample.pending_world
    = (Raises (DoesNotExist "Order"), w') /\
    store w' = store Sample.pending_world /\
    journal w' = journal Sample.pending_world.
Proof.
  split; [reflexivity|].
  apply (unknown_order_is_not_found Sample.settings Sample.stray_docdataorder
           "new" "paid" Sample.pending_world).
  reflexivity.
Defined.

(** ** Lines under the forced update *)

Lemma update_lines_of_same (pk : Z) (c : string) (ls : list Line) :
  List.filter (fun l => Z.eqb (line_order_id l) pk) (ORM.update_lines_of pk c ls)
  = List.map (ORM.set_line_status c)
      (List.filter (fun l => Z.eqb (line_order_id l) pk) ls).
Proof.
  induction ls as [|l ls IH]; [reflexivity|].
  simpl. destruct (Z.eqb (line_order_id l) pk) eqn:E; simpl; rewrite ?E.
  - rewrite IH. reflexivity.
  - exact IH.
Qed.

Lemma update_lines_of_other (pk pk' : Z) (c : string) (ls : list Line) :
  pk' <> pk ->
  List.filter (fun l => Z.eqb (line_order_id l) pk') (ORM.update_lines_of pk c ls)
  = List.filter (fun l => Z.eqb (line_order_id l) pk') ls.
Proof.
  intros Hne. induction ls as [|l ls IH]; [reflexivity|].
  simpl. destruct (Z.eqb (line_order_id l) pk) eqn:E; simpl.
  - apply Z.eqb_eq in E. rewrite E.
    destruct (Z.eqb pk pk') eqn:E'; [apply Z.eqb_eq in E'; congruence|].
    exact IH.
  - rewrite IH. reflexivity.
Qed.

Lemma update_lines_of_keys (pk : Z) (c : string) (ls : list Line) :
  List.map line_id (ORM.update_lines_of pk c ls) = List.map line_id ls.
Proof.
  induction ls as [|l ls IH]; [reflexivity|].
  simpl. rewrite IH. destruct (Z.eqb (line_order_id l) pk); reflexivity.
Qed.

Lemma truthy_nonempty (c : string) : Py.truthy c = true <-> c <> "".
Proof. destruct c; simpl; split; congruence. Qed.

Lemma cascaded_lines_truthy cfg ps o ls c :
  cascade_of cfg ps = Some c -> c <> "" ->
  cascaded_lines cfg ps o ls = ORM.update_lines_of (order_id o) c ls.
Proof.
  intros Hc Hne. unfold cascaded_lines. rewrite Hc.
  apply truthy_nonempty in Hne. rewrite Hne. reflexivity.
Qed.

Lemma cascaded_lines_falsy cfg ps o ls :
  cascade_of cfg ps = None \/ cascade_of cfg ps = Some "" ->
  cascaded_lines cfg ps o ls = ls.
Proof.
  intros [Hc|Hc]; unfold cascaded_lines; rewrite Hc; reflexivity.
Qed.

(** ** Saving the order *)

Lemma write_order_In (o : Order) (os : list Order) : In o (ORM.write_order o os).
Proof.
  unfold ORM.write_order. destruct (existsb _ os) eqn:E.
  - apply existsb_exists in E. destruct E as [r [Hin Hpk]].
    apply in_map_iff. exists r. rewrite Hpk. split; [reflexivity|exact Hin].
  - apply in_or_app. right. left. reflexivity.
Qed.

Lemma filter_singleton_In {A} (p : A -> bool) (l : list A) (x : A) :
  List.filter p l = [x] -> In x l /\ p x = true.
Proof.
  intros H. apply filter_In. rewrite H. left. reflexivity.
Qed.

(** Rewriting the row of a primary key leaves the rows of other keys. *)
Lemma replace_absent (o' : Order) (os : list Order) :
  ~ In (order_id o') (List.map order_id os) ->
  List.map (fun r => if ORM.has_pk (order_id o') r then o' else r) os = os.
Proof.
  induction os as [|r os IH]; [reflexivity|].
  simpl. intros Hn. unfold ORM.has_pk at 1.
  destruct (Z.eqb (order_id r) (order_id o')) eqn:E.
  - apply Z.eqb_eq in E. exfalso. apply Hn. left. exact E.
  - rewrite IH; [reflexivity|]. intros Hin. apply Hn. right. exact Hin.
Qed.

Lemma replace_finds (number : string) (o o' : Order) (os : list Order) :
  NoDup (List.map order_id os) ->
  order_id o' = order_id o ->
  order_number o' = number ->
  List.filter (ORM.with_number number) os = [o] ->
  List.filter (ORM.with_number number)
    (List.map (fun r => if ORM.has_pk (order_id o') r then o' else r) os) = [o'].
Proof.
  intros Hnd Hid Hnum.
  assert (Hp : ORM.with_number number o' = true)
    by (unfold ORM.with_number; rewrite Hnum; apply String.eqb_refl).
  induction os as [|r os IH]; [discriminate|].
  simpl. inversion Hnd as [|x l Hnotin Hnd']; subst x l.
  rewrite list_elem_of_In in Hnotin.
  destruct (ORM.with_number number r) eqn:Er.
  - intros H. injection H as Hr Hrest. subst r.
    assert (Hpk : ORM.has_pk (order_id o') o = true)
      by (unfold ORM.has_pk; rewrite Hid; apply Z.eqb_refl).
    rewrite Hpk. simpl. rewrite Hp.
    rewrite replace_absent by (rewrite Hid; exact Hnotin).
    rewrite Hrest. reflexivity.
  - intros H. destruct (filter_singleton_In _ _ _ H) as [Hin _].
    unfold ORM.has_pk at 1.
    destruct (Z.eqb (order_id r) (order_id o')) eqn:E.
    + apply Z.eqb_eq in E. exfalso. apply Hnotin. rewrite E, Hid.
      apply in_map. exact Hin.
    + simpl. rewrite Er. apply IH; assumption.
Qed.

Lemma write_order_finds (number : string) (o o' : Order) (os : list Order) :
  NoDup (List.map order_id os) ->
  order_id o' = order_id o ->
  order_number o' = number ->
  List.filter (ORM.with_number number) os = [o] ->
  List.filter (ORM.with_number number) (ORM.write_order o' os) = [o'].
Proof.
  intros Hnd Hid Hnum Hf. unfold ORM.write_order.
  destruct (filter_singleton_In _ _ _ Hf) as [Hin _].
  assert (E : existsb (ORM.has_pk (order_id o')) os = true).
  { apply existsb_exists. exists o. split; [exact Hin|].
    unfold ORM.has_pk. rewrite Hid. apply Z.eqb_refl. }
  rewrite E. apply replace_finds with (o := o); assumption.
Qed.

(** ** The cascade to the lines *)

(** C3, as first put, fails: with the cascade entry [Paid -> ""] the order
    100042 moves from [Pending] to [Paid], yet its two lines keep the
    status [Pending] instead of taking the status of the entry. *)
Lemma blank_cascade_entry_is_skipped :
  ~ cascade_reaches_every_line Sample.blank_cascade_settings Sample.docdataorder
      "new" "paid" Sample.pending_world.
Proof.
  intros H.
  specialize (H Sample.pending_order eq_refl). 
  assert (Hne : order_status Sample.pending_order
                <> project_status_of Sample.blank_cascade_settings "paid")
    by (vm_compute; discriminate).
  specialize (H Hne). vm_compute in H.
  inversion H as [|l ls Hl _]. discriminate Hl.
Qed.

(** C3. On every status transition that [order_status_changed] applies:
    when the cascade table maps the new project status to a non-empty line
    status, every line of the order has exactly that status afterwards,
    the lines are the same rows otherwise and the lines of other orders are
    as before; when the cascade table has no entry for the project status,
    or its entry is the empty string, the lines table is unchanged. *)
Theorem cascade_forces_line_status cfg d old new (w : World) (o : Order) :
  finds w (DocdataOrder.merchant_order_id d) o ->
  order_status o <> project_status_of cfg new ->
  exists w',
    order_status_changed cfg d old new w = (Returns tt, w') /\
    (forall c,
        cascade_of cfg (project_status_of cfg new) = Some c -> c <> "" ->
        Forall (fun l => line_status l = c) (lines_of (order_id o) w') /\
        lines_of (order_id o) w'
        = List.map (ORM.set_line_status c) (lines_of (order_id o) w) /\
        List.map line_id (lines (store w')) = List.map line_id (lines (store w)) /\
        (forall pk, pk <> order_id o -> lines_of pk w' = lines_of pk w)) /\
    (cascade_of cfg (project_status_of cfg new) = None \/
     cascade_of cfg (project_status_of cfg new) = Some "" ->
     lines (store w') = lines (store w)).
Proof.
  intros Hf Hs. eexists. split.
  - apply order_status_changed_applied; eassumption.
  - split.
    + intros c Hc Hne. unfold lines_of. simpl.
      rewrite (cascaded_lines_truthy _ _ _ _ c Hc Hne).
      rewrite update_lines_of_same, update_lines_of_keys.
      repeat split.
      * apply List.Forall_forall. intros l Hl. apply in_map_iff in Hl.
        destruct Hl as [l0 [<- _]]. reflexivity.
      * intros pk Hpk. apply update_lines_of_other. exact Hpk.
    + intros Hc. simpl. apply cascaded_lines_falsy. exact Hc.
Qed.

Lemma cascade_forces_line_status_witness :
  exists w',
    order_status_changed Sample.settings Sample.docdataorder "new" "paid"
      Sample.pending_world = (Returns tt, w') /\
    lines_of 1 w'
    = [Sample.line 1 1 "Being processed"; Sample.line 2 1 "Being processed"] /\
    lines_of 2 w' = [Sample.line 3 2 "Pending"].
Proof.
  destruct (cascade_forces_line_status Sample.settings Sample.docdataorder
              "new" "paid" Sample.pending_world Sample.pending_order)
    as [w' [Hrun [Hforced _]]].
  - reflexivity.
  - vm_compute. discriminate.
  - exists w'. split; [exact Hrun|].
    destruct (Hforced "Being processed") as [_ [Hsame [_ Hother]]].
    + reflexivity.
    + discriminate.
    + split.
      * exact Hsame.
      * apply (Hother 2). discriminate.
Defined.

(** ** Order of the effects *)

(** C4. In every run of [order_status_changed] that is not a duplicate, the
    notification is the last effect: it is sent from a world in which the
    order row already carries the new status and the lines are already
    cascaded, every effect before it is a write, the write of the order is
    among them (and so is the update of the lines when there is a
    cascade), and nothing is written after it. *)
Theorem signal_follows_persistence cfg d old new (w : World) (o : Order) :
  finds w (DocdataOrder.merchant_order_id d) o ->
  order_status o <> project_status_of cfg new ->
  let ps := project_status_of cfg new in
  exists w1 w' writes,
    order_status_changed cfg d old new w = (Returns tt, w') /\
    Interface_order_status_changed d old new w1 = (Returns tt, w') /\
    store w1 = applied_store cfg ps o (store w) /\
    In (set_order_status ps o) (orders (store w1)) /\
    store w' = store w1 /\
    emitted w w1 = writes /\
    emitted w w' = (writes ++ [EvSignal d old new])%list /\
    Forall (fun e => is_write e = true /\ is_signal e = false) writes /\
    In (EvOrderSave (set_order_status ps o)) writes /\
    (forall c, cascade_of cfg ps = Some c -> c <> "" ->
               In (EvLinesUpdate (order_id o) c) writes).
Proof.
  intros Hf Hs ps.
  exists (persisted_world cfg ps o w),
         (record_event (EvSignal d old new) (persisted_world cfg ps o w)),
         (cascade_events cfg ps o ++ [EvOrderSave (set_order_status ps o)])%list.
  split; [apply order_status_changed_applied; assumption|].
  split; [reflexivity|]. split; [reflexivity|].
  split; [apply write_order_In|]. split; [reflexivity|].
  split; [apply emitted_app; reflexivity|].
  split; [rewrite emitted_applied, <- app_assoc; reflexivity|].
  split; [|split].
  - apply Forall_app. split.
    + unfold cascade_events. destruct (cascade_of cfg ps) as [c|];
        [destruct (Py.truthy c)|]; repeat constructor.
    + repeat constructor.
  - apply in_or_app. right. left. reflexivity.
  - intros c Hc Hne. apply in_or_app. left.
    unfold cascade_events. rewrite Hc.
    apply truthy_nonempty in Hne. rewrite Hne. left. reflexivity.
Qed.

Lemma signal_follows_persistence_witness :
  exists w1 w',
    order_status_changed Sample.settings Sample.docdataorder "new" "paid"
      Sample.pending_world = (Returns tt, w') /\
    Interface_order_status_changed Sample.docdataorder "new" "paid" w1
    = (Returns tt, w') /\
    In Sample.paid_order (orders (store w1)) /\
    emitted Sample.pending_world w'
    = [EvLinesUpdate 1 "Being processed"; EvOrderSave Sample.paid_order;
       EvSignal Sample.docdataorder "new" "paid"].
Proof.
  destruct (signal_follows_persistence Sample.settings Sample.docdataorder
              "new" "paid" Sample.pending_world Sample.pending_order)
    as [w1 [w' [writes [Hrun [Hsig [Hst [Hin [_ [_ [Hem _]]]]]]]]]].
  - reflexivity.
  - vm_compute. discriminate.
  - exists w1, w'. split; [exact Hrun|]. split; [exact Hsig|].
    split; [exact Hin|].
    assert (Hw : w' = (order_status_changed Sample.settings Sample.docdataorder
                         "new" "paid" Sample.pending_world).2)
      by (rewrite Hrun; reflexivity).
    rewrite Hw. reflexivity.
Defined.

(** ** Statuses outside the pipeline *)

(** C5, as first put, fails: [chargedback] has no mapping entry and is not
    a status of the pipeline, but the cascade table has an entry for it;
    the order 100042 takes the status [chargedback] and its lines are
    rewritten to [Cancelled]. *)
Lemma stray_cascade_entry_is_applied :
  ~ unrecognized_status_skips_cascade Sample.pipeline_status
      Sample.stray_cascade_settings Sample.docdataorder "new" "chargedback"
      Sample.pending_world.
Proof.
  intros H.
  destruct (H Sample.pending_order eq_refl eq_refl) as [_ Hlines].
  vm_compute in Hlines. discriminate Hlines.
Qed.

(** C5. Whatever set of statuses is taken as recognized, a project status
    outside it is treated like any other: after [order_status_changed] the
    order found by its number carries exactly that project status, its
    other columns being as before; and no line is modified when the
    cascade table has no entry, or the empty entry, for that status. *)
Theorem unrecognized_status_is_stored (recognized : string -> bool)
        cfg d old new (w : World) (o : Order) :
  finds w (DocdataOrder.merchant_order_id d) o ->
  primary_keys_unique w ->
  recognized (project_status_of cfg new) = false ->
  let ps := project_status_of cfg new in
  let w' := (order_status_changed cfg d old new w).2 in
  (exists o',
      finds w' (DocdataOrder.merchant_order_id d) o' /\
      order_status o' = ps /\
      order_id o' = order_id o /\
      order_number o' = order_number o /\
      order_total_incl_tax o' = order_total_incl_tax o) /\
  (cascade_of cfg ps = None \/ cascade_of cfg ps = Some "" ->
   lines (store w') = lines (store w)).
Proof.
  intros Hf Hpk _ ps w'. subst w'.
  destruct (String.eqb_spec (order_status o) ps) as [Heq|Hne].
  - rewrite (order_status_changed_duplicate cfg d old new w o Hf Heq).
    split; [|reflexivity].
    exists o. repeat split; [exact Hf|exact Heq].
  - rewrite (order_status_changed_applied cfg d old new w o Hf Hne).
    split.
    + exists (set_order_status ps o). repeat split.
      unfold finds. simpl. apply write_order_finds with (o := o).
      * exact Hpk.
      * reflexivity.
      * destruct (filter_singleton_In _ _ _ Hf) as [_ Hn].
        apply String.eqb_eq in Hn. exact Hn.
      * exact Hf.
    + intros Hc. simpl. apply cascaded_lines_falsy. exact Hc.
Qed.

Lemma unrecognized_status_is_stored_witness :
  let w' := (order_status_changed Sample.settings Sample.docdataorder "new"
               "expired" Sample.pending_world).2 in
  (exists o',
      finds w' "100042" o' /\
      order_status o' = "expired" /\
      order_id o' = 1 /\
      order_number o' = "100042" /\
      order_total_incl_tax o' = 2500) /\
  lines (store w') = lines (store Sample.pending_world).
Proof.
  destruct (unrecognized_status_is_stored Sample.pipeline_status Sample.settings
              Sample.docdataorder "new" "expired" Sample.pending_world
              Sample.pending_order) as [Hstored Hlines].
  - reflexivity.
  - unfold primary_keys_unique. apply (bool_decide_unpack _). reflexivity.
  - reflexivity.
  - split; [exact Hstored|]. apply Hlines. left. reflexivity.
Defined.

(** ** Session creation *)

(** C7, as first put, fails: when the gateway rejects the session, the
    [PaymentError] that reaches the caller holds the creation error of the
    gateway as its second argument. *)
Lemma payment_error_holds_gateway_error :
  ~ creation_error_is_hidden Sample.settings Sample.rejecting_gateway
      Sample.call Sample.pending_world.
Proof.
  intros [H _].
  destruct (H "REQUEST_DATA_INCORRECT" Sample.pending_world eq_refl)
    as [args [Hrun Hfree]].
  vm_compute in Hrun. injection Hrun as <-. discriminate Hfree.
Qed.

(** C7. When the session setup of the gateway fails with a creation
    error, [create_payment] raises a [PaymentError] in its place, whose
    arguments are the value of the creation error and the creation error
    object itself; the error raised to the caller is never the creation
    error as such; and on success the order key of the underlying
    interface is returned. *)
Theorem create_payment_wraps_creation_error cfg
        (gateway : PaymentCall -> M string) (call : PaymentCall) (w : World) :
  let inner := gateway (with_profile (profile_of cfg call) call) w in
  (forall v w1,
      inner = (Raises (DocdataCreateError v), w1) ->
      create_payment cfg gateway call w
      = (Raises (PaymentError [ArgStr v; ArgExc (DocdataCreateError v)]), w1)) /\
  (forall e w1,
      create_payment cfg gateway call w = (Raises e, w1) ->
      is_DocdataCreateError e = false) /\
  (forall key w1,
      inner = (Returns key, w1) ->
      create_payment cfg gateway call w = (Returns key, w1)).
Proof.
  intros inner. subst inner.
  unfold create_payment, profile_of, try_except, mbind, M_bind, mret, M_ret, raise.
  destruct (gateway _ w) as [[key|e] w0].
  - repeat split; intros; congruence.
  - destruct e; simpl; repeat split; intros;
      try discriminate; try congruence;
      match goal with
      | H : (_, _) = (_, _) |- _ => injection H; intros; subst; reflexivity
      end.
Qed.

Lemma create_payment_wraps_creation_error_witness :
  create_payment Sample.settings Sample.rejecting_gateway Sample.call
    Sample.pending_world
  = (Raises (PaymentError [ArgStr "REQUEST_DATA_INCORRECT";
                           ArgExc (DocdataCreateError "REQUEST_DATA_INCORRECT")]),
     Sample.pending_world) /\
  create_payment Sample.settings Sample.accepting_gateway Sample.call
    Sample.pending_world
  = (Returns "KEY100042", Sample.pending_world).
Proof.
  split.
  - apply (proj1 (create_payment_wraps_creation_error Sample.settings
                    Sample.rejecting_gateway Sample.call Sample.pending_world)).
    reflexivity.
  - apply (proj2 (proj2 (create_payment_wraps_creation_error Sample.settings
                    Sample.accepting_gateway Sample.call Sample.pending_world))).
    reflexivity.
Defined.

(** ** The source type *)

Lemma get_source_type_existing (w : World) (s : SourceType) :
  docdata_source_types w = [s] ->
  get_source_type w = (Returns s, bound w).
Proof.
  intros H. unfold get_source_type.
  rewrite (bind_returns _ _ _ _ _ (lazy_get_models_spec w)).
  unfold mbind, M_bind, ORM.SourceType_get_or_create.
  change (List.filter (ORM.with_code "docdata") (source_types (store (bound w))))
    with (docdata_source_types w).
  rewrite H. reflexivity.
Qed.

(** The row that a first call creates. *)
Lemma get_source_type_absent (w : World) :
  docdata_source_types w = [] ->
  let s := {| source_type_id := ORM.next_source_type_id (source_types (store w));
              source_type_name := "Docdata Payments";
              source_type_code := "docdata" |} in
  get_source_type w
  = (Returns s,
     {| models_bound := true;
        store := {| orders := orders (store w);
                    lines := lines (store w);
                    source_types := (source_types (store w) ++ [s])%list;
                    docdata_orders := docdata_orders (store w) |};
        journal := (journal w ++ [EvSourceTypeCreate s])%list |}).
Proof.
  intros H s. unfold get_source_type.
  rewrite (bind_returns _ _ _ _ _ (lazy_get_models_spec w)).
  unfold mbind, M_bind, ORM.SourceType_get_or_create.
  change (List.filter (ORM.with_code "docdata") (source_types (store (bound w))))
    with (docdata_source_types w).
  rewrite H. reflexivity.
Qed.

(** C8. [get_source_type] looks the source type up by the code [docdata]
    and creates it when absent.  With at most one row of that code in the
    table (the code identifies a source type): the call returns a row of
    that code, which is afterwards the only one; a row that existed is
    returned as it was and nothing is written; when none existed, exactly
    one row is added, labelled [Docdata Payments], and the other tables
    are as before; and a second call returns the same row and writes
    nothing. *)
Theorem get_source_type_idempotent (w : World) :
  (length (docdata_source_types w) <= 1)%nat ->
  exists s w1,
    get_source_type w = (Returns s, w1) /\
    source_type_code s = "docdata" /\
    docdata_source_types w1 = [s] /\
    (forall s0, docdata_source_types w = [s0] ->
                s = s0 /\ store w1 = store w /\ emitted w w1 = []) /\
    (docdata_source_types w = [] ->
     source_type_name s = "Docdata Payments" /\
     source_types (store w1) = (source_types (store w) ++ [s])%list /\
     orders (store w1) = orders (store w) /\
     lines (store w1) = lines (store w) /\
     docdata_orders (store w1) = docdata_orders (store w) /\
     emitted w w1 = [EvSourceTypeCreate s]) /\
    exists w2,
      get_source_type w1 = (Returns s, w2) /\
      store w2 = store w1 /\
      emitted w1 w2 = [].
Proof.
  intros Hle.
  destruct (docdata_source_types w) as [|s0 [|s1 rest]] eqn:E.
  - pose proof (get_source_type_absent w E) as Hrun. cbv zeta in Hrun.
    eexists. eexists. split; [exact Hrun|].
    assert (Hone : docdata_source_types
                     {| models_bound := true;
                        store := {| orders := orders (store w);
                                    lines := lines (store w);
                                    source_types :=
                                      (source_types (store w) ++
                                       [{| source_type_id :=
                                             ORM.next_source_type_id (source_types (store w));
                                           source_type_name := "Docdata Payments";
                                           source_type_code := "docdata" |}])%list;
                                    docdata_orders := docdata_orders (store w) |};
                        journal := (journal w ++
                                    [EvSourceTypeCreate
                                       {| source_type_id :=
                                            ORM.next_source_type_id (source_types (store w));
                                          source_type_name := "Docdata Payments";
                                          source_type_code := "docdata" |}])%list |}
                   = [{| source_type_id := ORM.next_source_type_id (source_types (store w));
                         source_type_name := "Docdata Payments";
                         source_type_code := "docdata" |}]).
    { unfold docdata_source_types in *. simpl. rewrite List.filter_app, E.
      reflexivity. }
    split; [reflexivity|]. split; [exact Hone|].
    split; [intros s0 Hs0; discriminate Hs0|].
    split.
    + intros _. repeat split. apply emitted_app. reflexivity.
    + eexists. split; [apply get_source_type_existing; exact Hone|].
      split; [reflexivity|]. apply emitted_same. reflexivity.
  - pose proof (get_source_type_existing w s0 E) as Hrun.
    assert (Hcode : source_type_code s0 = "docdata").
    { destruct (filter_singleton_In _ _ _ E) as [_ Hc].
      apply String.eqb_eq in Hc. exact Hc. }
    assert (E' : docdata_source_types (bound w) = [s0]) by exact E.
    exists s0, (bound w). split; [exact Hrun|].
    split; [exact Hcode|]. split; [exact E'|].
    split.
    + intros s1 Hs1. injection Hs1 as <-.
      repeat split. apply emitted_same. reflexivity.
    + split; [intros H; discriminate H|].
      exists (bound (bound w)).
      split; [apply get_source_type_existing; exact E'|].
      split; [reflexivity|]. apply emitted_same. reflexivity.
  - simpl in Hle. lia.
Qed.

Lemma get_source_type_idempotent_witness :
  exists s w1,
    get_source_type Sample.pending_world = (Returns s, w1) /\
    s = {| source_type_id := 1; source_type_name := "Docdata Payments";
           source_type_code := "docdata" |} /\
    source_types (store w1) = [s] /\
    exists w2, get_source_type w1 = (Returns s, w2) /\ store w2 = store w1.
Proof.
  destruct (get_source_type_idempotent Sample.pending_world)
    as [s [w1 [Hrun [_ [_ [_ [Hnew [w2 [Hagain [Hsame _]]]]]]]]]].
  - vm_compute. lia.
  - exists s, w1. split; [exact Hrun|].
    assert (Hs : Returns s = (get_source_type Sample.pending_world).1)
      by (rewrite Hrun; reflexivity).
    split; [injection Hs as ->; reflexivity|].
    split.
    + destruct (Hnew eq_refl) as [_ [Happ _]]. rewrite Happ. reflexivity.
    + exists w2. split; [exact Hagain|exact Hsame].
Defined.

(** ** The arguments of the payment request *)

Lemma slice_to_take (n : nat) (s : Py.text) :
  Py.slice_to n s = take n s.
Proof.
  revert s. induction n as [|n IH]; intros s; [reflexivity|].
  destruct s as [|c s]; [reflexivity|]. simpl. rewrite IH. reflexivity.
Qed.

Lemma slice_to_length (n : nat) (s : Py.text) :
  length (Py.slice_to n s) = Nat.min n (length s).
Proof.
  revert s. induction n as [|n IH]; intros s; [reflexivity|].
  destruct s as [|c s]; [reflexivity|]. simpl. rewrite IH. reflexivity.
Qed.

Lemma slice_to_whole (n : nat) (s : Py.text) :
  (length s <= n)%nat -> Py.slice_to n s = s.
Proof.
  revert s. induction n as [|n IH]; intros s H.
  - destruct s; [reflexivity|simpl in H; lia].
  - destruct s as [|c s]; [reflexivity|]. simpl in *. rewrite IH by lia.
    reflexivity.
Qed.

Lemma Name_new_returns (first_name last_name : string) :
  first_name <> "" -> last_name <> "" ->
  Name_new first_name last_name
  = Returns {| first := first_name; last := last_name |}.
Proof.
  intros Hf Hl. unfold Name_new.
  destruct first_name, last_name; try congruence. reflexivity.
Qed.

Lemma Name_new_inv (first_name last_name : string) (n : Name) :
  Name_new first_name last_name = Returns n ->
  first_name <> "" /\ last_name <> "" /\
  n = {| first := first_name; last := last_name |}.
Proof.
  unfold Name_new. destruct first_name, last_name; simpl; intros H;
    try discriminate H.
  injection H as <-. repeat split; discriminate.
Qed.

Lemma Name_new_refuses (first_name last_name : string) :
  first_name = "" \/ last_name = "" ->
  Name_new first_name last_name = Raises ValueError.
Proof.
  unfold Name_new. intros [->| ->]; [destruct last_name|]; reflexivity.
Qed.

Lemma or_nonempty (a b : string) : b <> "" -> Py.or_ a b <> "".
Proof. unfold Py.or_. destruct a; simpl; [auto|discriminate]. Qed.

(** What a returned request says about the call it was built from. *)
Lemma get_create_payment_args_inv cfg (get_language : option string)
      (to_iso639_part1 : option string -> outcome string)
      (call : PaymentCall) (args : CreatePaymentArgs) :
  get_create_payment_args cfg get_language to_iso639_part1 call = Returns args ->
  exists billingaddress language,
    call_kwargs call !! "billingaddress" = Some billingaddress /\
    user_first_name (call_user call) <> "" /\
    user_last_name (call_user call) <> "" /\
    to_iso639_part1 (Py.or_none (call_language call) get_language)
    = Returns language /\
    arg_order_id args = call_order_number call /\
    arg_total_gross_amount args
    = {| amount_value := incl_tax (call_total call);
         amount_currency := price_currency (call_total call) |} /\
    arg_shopper args
    = {| shopper_id := user_id (call_user call);
         shopper_name := {| first := user_first_name (call_user call);
                            last := user_last_name (call_user call) |};
         shopper_email := user_email (call_user call);
         shopper_language := language;
         shopper_gender := "U" |} /\
    destination_name (arg_bill_to args)
    = {| first := Py.or_ (ba_first_name billingaddress)
                         (user_first_name (call_user call));
         last := Py.or_ (ba_last_name billingaddress)
                        (user_last_name (call_user call)) |} /\
    destination_address (arg_bill_to args)
    = {| street := Py.slice_to 32 (line1 billingaddress);
         house_number := "N/A";
         house_number_addition := None;
         postal_code := postcode billingaddress;
         city := ba_city billingaddress;
         state := ba_state billingaddress;
         country_code := country_id billingaddress |} /\
    arg_description args = call_description call /\
    arg_profile args = Py.or_opt (call_profile call) (DOCDATA_PROFILE cfg).
Proof.
  unfold get_create_payment_args.
  destruct (call_kwargs call !! "billingaddress") as [ba|]; [|discriminate].
  destruct (Name_new (user_first_name (call_user call))
                     (user_last_name (call_user call))) as [n1|e1] eqn:E1;
    [|intros H; simpl in H; discriminate H].
  destruct (Name_new_inv _ _ _ E1) as [Hf [Hl ->]].
  unfold mbind at 1, outcome_bind at 1; cbv beta iota.
  destruct (Name_new (Py.or_ _ _) (Py.or_ _ _)) as [n2|e2] eqn:E2;
    [|intros H; simpl in H; discriminate H].
  destruct (Name_new_inv _ _ _ E2) as [_ [_ ->]].
  unfold mbind at 1, outcome_bind at 1; cbv beta iota.
  destruct (to_iso639_part1 _) as [l|e3] eqn:E3; [|intros H; simpl in H; discriminate H].
  unfold mbind, outcome_bind, mret, outcome_ret.
  intros H. injection H as <-.
  exists ba, l. repeat split; assumption.
Qed.

(** When a request is returned. *)
Lemma get_create_payment_args_returns cfg (get_language : option string)
      (to_iso639_part1 : option string -> outcome string)
      (call : PaymentCall) (billingaddress : BillingAddress) (language : string) :
  call_kwargs call !! "billingaddress" = Some billingaddress ->
  user_first_name (call_user call) <> "" ->
  user_last_name (call_user call) <> "" ->
  to_iso639_part1 (Py.or_none (call_language call) get_language) = Returns language ->
  exists args,
    get_create_payment_args cfg get_language to_iso639_part1 call = Returns args.
Proof.
  intros Hb Hf Hl Hi. unfold get_create_payment_args. rewrite Hb.
  rewrite (Name_new_returns _ _ Hf Hl).
  unfold mbind at 1, outcome_bind at 1; cbv beta iota.
  rewrite (Name_new_returns _ _ (or_nonempty _ _ Hf) (or_nonempty _ _ Hl)).
  unfold mbind at 1, outcome_bind at 1; cbv beta iota.
  rewrite Hi. eexists. reflexivity.
Qed.

(** C9. For every billing address passed to [get_create_payment_args],
    the street of the destination in any request it returns consists of
    the first 32 characters of the first address line: a line of at most
    32 characters is taken whole, a longer one is cut to 32 characters
    without any error; and the house number is always the text [N/A].
    Such a request is returned whenever the user has a first and a last
    name and [to_iso639_part1] answers for the language. *)
Theorem bill_to_street_is_truncated cfg (get_language : option string)
        (to_iso639_part1 : option string -> outcome string)
        (call : PaymentCall) (billingaddress : BillingAddress) :
  call_kwargs call !! "billingaddress" = Some billingaddress ->
  (forall args,
      get_create_payment_args cfg get_language to_iso639_part1 call = Returns args ->
      let address := destination_address (arg_bill_to args) in
      street address = take 32 (line1 billingaddress) /\
      length (street address) = Nat.min 32 (length (line1 billingaddress)) /\
      ((length (line1 billingaddress) <= 32)%nat ->
       street address = line1 billingaddress) /\
      house_number address = "N/A") /\
  (forall language,
      user_first_name (call_user call) <> "" ->
      user_last_name (call_user call) <> "" ->
      to_iso639_part1 (Py.or_none (call_language call) get_language)
      = Returns language ->
      exists args,
        get_create_payment_args cfg get_language to_iso639_part1 call
        = Returns args).
Proof.
  intros Hb. split.
  - intros args Hrun.
    destruct (get_create_payment_args_inv _ _ _ _ _ Hrun)
      as [ba [l [Hb' [_ [_ [_ [_ [_ [_ [_ [Haddr _]]]]]]]]]]].
    rewrite Hb in Hb'. injection Hb' as <-.
    cbv zeta. rewrite Haddr. cbn [street house_number].
    split; [apply slice_to_take|].
    split; [apply slice_to_length|].
    split; [apply slice_to_whole|reflexivity].
  - intros language Hf Hl Hi.
    apply get_create_payment_args_returns with (billingaddress := billingaddress)
                                               (language := language);
      assumption.
Qed.

Lemma bill_to_street_is_truncated_witness :
  (exists args,
      get_create_payment_args Sample.settings (Some "nl-NL") Scenario.language_part
        Sample.call = Returns args /\
      street (destination_address (arg_bill_to args))
      = Py.ascii_text "Burgemeester van Roijensingel 12" /\
      house_number (destination_address (arg_bill_to args)) = "N/A") /\
  (exists args,
      get_create_payment_args Sample.settings None Scenario.language_part
        (with_kwargs {[ "billingaddress" := Scenario.umlaut_address ]}
           (with_profile "ideal" (Scenario.with_user Sample.shopper
              {| call_order_number := "100044";
                 call_total := {| incl_tax := 990; price_currency := "EUR" |};
                 call_user := Sample.shopper;
                 call_language := Some "de-DE";
                 call_description := None;
                 call_profile := None;
                 call_kwargs := ∅ |})))
      = Returns args /\
      length (street (destination_address (arg_bill_to args))) = 32%nat).
Proof.
  split.
  - destruct (bill_to_street_is_truncated Sample.settings (Some "nl-NL")
                Scenario.language_part Sample.call Sample.billingaddress eq_refl)
      as [Hcut Hreturns].
    destruct (Hreturns "nl") as [args Hrun];
      [discriminate|discriminate|reflexivity|].
    exists args. split; [exact Hrun|].
    destruct (Hcut args Hrun) as [Htake [_ [_ Hnumber]]].
    split; [rewrite Htake; reflexivity|exact Hnumber].
  - match goal with
    | |- exists args, get_create_payment_args _ _ _ ?c = _ /\ _ =>
        destruct (bill_to_street_is_truncated Sample.settings None
                    Scenario.language_part c Scenario.umlaut_address eq_refl)
          as [Hcut Hreturns]
    end.
    destruct (Hreturns "de") as [args Hrun];
      [discriminate|discriminate|reflexivity|].
    exists args. split; [exact Hrun|].
    destruct (Hcut args Hrun) as [_ [Hlen _]].
    rewrite Hlen. reflexivity.
Defined.

(** ** The data migration *)

Lemma filter_update_lookup (name : string) (rows : list DocdataOrder.t)
      (i : nat) (r : DocdataOrder.t) :
  rows !! i = Some r ->
  Migration.filter_update name rows !! i
  = Some (if Migration.merchant_name_blank r
          then Migration.set_merchant_name name r else r).
Proof.
  revert i. induction rows as [|x rows IH]; intros i H; [discriminate|].
  destruct i as [|i]; simpl in *.
  - injection H as ->. reflexivity.
  - apply IH. exact H.
Qed.

Lemma filter_update_length (name : string) (rows : list DocdataOrder.t) :
  length (Migration.filter_update name rows) = length rows.
Proof. apply List.length_map. Qed.

Lemma same_but_merchant_name_refl (r : DocdataOrder.t) :
  same_but_merchant_name r r.
Proof. unfold same_but_merchant_name. repeat split. Qed.

Lemma same_but_merchant_name_set (name : string) (r : DocdataOrder.t) :
  same_but_merchant_name r (Migration.set_merchant_name name r).
Proof. unfold same_but_merchant_name. repeat split. Qed.

(** C10. The forwards step of the migration keeps the number and order of
    the [docdataorder] rows and leaves the other tables alone; a row whose
    [merchant_name] is the empty string gets the configured merchant name,
    a row with any other [merchant_name] is exactly as before, and no
    column other than [merchant_name] changes in any row.  The backwards
    step changes nothing. *)
Theorem fill_merchant_name_frame cfg (st : Store) :
  let st' := Migration.forwards cfg st in
  orders st' = orders st /\
  lines st' = lines st /\
  source_types st' = source_types st /\
  length (docdata_orders st') = length (docdata_orders st) /\
  (forall i r,
      docdata_orders st !! i = Some r ->
      exists r',
        docdata_orders st' !! i = Some r' /\
        (DocdataOrder.merchant_name r = "" ->
         DocdataOrder.merchant_name r' = DOCDATA_MERCHANT_NAME cfg) /\
        (DocdataOrder.merchant_name r <> "" -> r' = r) /\
        same_but_merchant_name r r') /\
  Migration.backwards st = st.
Proof.
  intros st'. subst st'. simpl.
  repeat (split; [reflexivity|]).
  split; [apply filter_update_length|].
  split; [|reflexivity].
  intros i r Hr. eexists. split; [apply filter_update_lookup; exact Hr|].
  unfold Migration.merchant_name_blank.
  destruct (String.eqb_spec (DocdataOrder.merchant_name r) "") as [Hb|Hb].
  - split; [reflexivity|]. split; [congruence|].
    apply same_but_merchant_name_set.
  - split; [congruence|]. split; [reflexivity|].
    apply same_but_merchant_name_refl.
Qed.

Lemma fill_merchant_name_frame_witness :
  let st := Sample.tables Sample.paid_order in
  exists r0 r1,
    docdata_orders (Migration.forwards Sample.settings st) !! 0%nat = Some r0 /\
    DocdataOrder.merchant_name r0 = "webshop_nl" /\
    same_but_merchant_name Sample.docdataorder r0 /\
    docdata_orders (Migration.forwards Sample.settings st) !! 1%nat = Some r1 /\
    r1 = Sample.named_docdataorder /\
    Migration.backwards st = st.
Proof.
  intros st.
  pose proof (fill_merchant_name_frame Sample.settings st) as H.
  cbv zeta in H.
  destruct H as [_ [_ [_ [_ [Hrows Hback]]]]].
  destruct (Hrows 0%nat Sample.docdataorder eq_refl)
    as [r0 [H0 [Hname0 [_ Hsame0]]]].
  destruct (Hrows 1%nat Sample.named_docdataorder eq_refl)
    as [r1 [H1 [_ [Hkeep1 _]]]].
  exists r0, r1.
  split; [exact H0|]. split; [apply Hname0; reflexivity|].
  split; [exact Hsame0|]. split; [exact H1|].
  split; [apply Hkeep1; vm_compute; discriminate|exact Hback].
Defined.

(** * Further properties of the facade *)

(** ** Every run of a status notification *)

Lemma get_for_update_ambiguous (w : World) (number : string) :
  ambiguous_order w number ->
  ORM.Order_get_for_update number w = (Raises (MultipleObjectsReturned "Order"), w).
Proof.
  unfold ambiguous_order, ORM.Order_get_for_update. intros H.
  destruct (List.filter _ _) as [|o [|o' rest]]; simpl in H; try lia.
  reflexivity.
Qed.

Lemma order_status_changed_ambiguous cfg d old new (w : World) :
  ambiguous_order w (DocdataOrder.merchant_order_id d) ->
  order_status_changed cfg d old new w
  = (Raises (MultipleObjectsReturned "Order"), bound w).
Proof.
  intros H. unfold order_status_changed.
  rewrite (bind_returns _ _ _ _ _ (lazy_get_models_spec w)).
  apply bind_raises. apply get_for_update_ambiguous. exact H.
Qed.

Lemma order_status_changed_shape cfg d old new (w : World) :
  run_shape cfg d old new w.
Proof.
  destruct (List.filter (ORM.with_number (DocdataOrder.merchant_order_id d))
              (orders (store w))) as [|o [|o' rest]] eqn:E.
  - apply RunUnknown; [exact E|]. apply order_status_changed_unknown. exact E.
  - destruct (String.eqb_spec (order_status o) (project_status_of cfg new)) as [Hs|Hs].
    + apply RunDuplicate with (o := o); [exact E|exact Hs|].
      apply order_status_changed_duplicate with (o := o); assumption.
    + apply RunApplied with (o := o); [exact E|exact Hs|].
      apply order_status_changed_applied; assumption.
  - assert (Ha : ambiguous_order w (DocdataOrder.merchant_order_id d))
      by (unfold ambiguous_order; rewrite E; simpl; lia).
    apply RunAmbiguous; [exact Ha|]. apply order_status_changed_ambiguous. exact Ha.
Qed.

(** X1. [order_status_changed] comes back normally exactly when one single
    order row carries the merchant order number and its stored status
    differs from the mapped project status; in every other situation it
    ends with an exception. *)
Theorem order_status_changed_returns_iff cfg d old new (w : World) :
  (order_status_changed cfg d old new w).1 = Returns tt <->
  exists o,
    finds w (DocdataOrder.merchant_order_id d) o /\
    order_status o <> project_status_of cfg new.
Proof.
  split.
  - intros Hret.
    destruct (order_status_changed_shape cfg d old new w)
      as [_ Hrun|_ Hrun|o _ _ Hrun|o Hf Hs _];
      try (rewrite Hrun in Hret; discriminate Hret).
    exists o. split; assumption.
  - intros [o [Hf Hs]].
    rewrite (order_status_changed_applied cfg d old new w o Hf Hs). reflexivity.
Qed.

Lemma order_status_changed_returns_iff_witness :
  (order_status_changed Sample.settings Sample.docdataorder "new" "paid"
     Sample.pending_world).1 = Returns tt /\
  exists o,
    finds Sample.pending_world "100042" o /\ order_status o <> "Paid".
Proof.
  assert (H : (order_status_changed Sample.settings Sample.docdataorder "new" "paid"
                 Sample.pending_world).1 = Returns tt).
  { apply (proj2 (order_status_changed_returns_iff Sample.settings
                    Sample.docdataorder "new" "paid" Sample.pending_world)).
    exists Sample.pending_order. split; [reflexivity|vm_compute; discriminate]. }
  split; [exact H|].
  apply (proj1 (order_status_changed_returns_iff Sample.settings
                  Sample.docdataorder "new" "paid" Sample.pending_world)).
  exact H.
Defined.

(** X2. A run of [order_status_changed] that raises has changed nothing:
    the tables are as before and no write, log record or signal was
    issued.  The exceptions it can end with are the two lookup errors and
    the [IndexError] of the duplicate path. *)
Theorem order_status_changed_failure_leaves_no_trace cfg d old new
        (w w' : World) (e : PyExc) :
  order_status_changed cfg d old new w = (Raises e, w') ->
  store w' = store w /\
  journal w' = journal w /\
  (e = DoesNotExist "Order" \/ e = MultipleObjectsReturned "Order" \/ e = IndexError).
Proof.
  intros Hrun.
  destruct (order_status_changed_shape cfg d old new w)
    as [_ H|_ H|o _ _ H|o _ _ H];
    rewrite H in Hrun; try discriminate Hrun;
    injection Hrun as <- <-; repeat split; auto.
Qed.

Lemma order_status_changed_failure_leaves_no_trace_witness :
  store Scenario.twin_world = store Scenario.twin_world /\
  journal (bound Scenario.twin_world) = journal Scenario.twin_world /\
  (MultipleObjectsReturned "Order" = DoesNotExist "Order" \/
   MultipleObjectsReturned "Order" = MultipleObjectsReturned "Order" \/
   MultipleObjectsReturned "Order" = IndexError).
Proof.
  apply (order_status_changed_failure_leaves_no_trace Sample.settings
           Sample.docdataorder "new" "paid" Scenario.twin_world
           (bound Scenario.twin_world) (MultipleObjectsReturned "Order")).
  reflexivity.
Defined.

(** X3. When several order rows carry the merchant order number, the
    lookup of [order_status_changed] fails with [MultipleObjectsReturned]
    and none of them is modified. *)
Theorem ambiguous_order_number_is_rejected cfg d old new (w : World) :
  ambiguous_order w (DocdataOrder.merchant_order_id d) ->
  exists w',
    order_status_changed cfg d old new w
    = (Raises (MultipleObjectsReturned "Order"), w') /\
    store w' = store w /\
    journal w' = journal w.
Proof.
  intros H. exists (bound w). split; [|split; reflexivity].
  apply order_status_changed_ambiguous. exact H.
Qed.

Lemma ambiguous_order_number_is_rejected_witness :
  ambiguous_order Scenario.twin_world "100042" /\
  exists w',
    order_status_changed Sample.settings Sample.docdataorder "new" "paid"
      Scenario.twin_world = (Raises (MultipleObjectsReturned "Order"), w') /\
    store w' = store Scenario.twin_world /\
    journal w' = journal Scenario.twin_world.
Proof.
  assert (H : ambiguous_order Scenario.twin_world "100042")
    by (vm_compute; lia).
  split; [exact H|].
  apply (ambiguous_order_number_is_rejected Sample.settings Sample.docdataorder
           "new" "paid" Scenario.twin_world H).
Defined.

(** ** What a status notification leaves alone *)

Lemma lookup_map {A B} (f : A -> B) (l : list A) (i : nat) :
  List.map f l !! i = f <$> (l !! i).
Proof.
  revert i. induction l as [|x l IH]; intros [|i]; simpl; auto.
Qed.

Lemma replace_keys (o' : Order) (os : list Order) :
  List.map order_id
    (List.map (fun r => if ORM.has_pk (order_id o') r then o' else r) os)
  = List.map order_id os.
Proof.
  induction os as [|r os IH]; [reflexivity|].
  simpl. rewrite IH. unfold ORM.has_pk.
  destruct (Z.eqb (order_id r) (order_id o')) eqn:E; [|reflexivity].
  apply Z.eqb_eq in E. rewrite E. reflexivity.
Qed.

Lemma write_order_keys (o o' : Order) (os : list Order) :
  In o os -> order_id o' = order_id o ->
  List.map order_id (ORM.write_order o' os) = List.map order_id os.
Proof.
  intros Hin Hid. unfold ORM.write_order.
  assert (E : existsb (ORM.has_pk (order_id o')) os = true).
  { apply existsb_exists. exists o. split; [exact Hin|].
    unfold ORM.has_pk. rewrite Hid. apply Z.eqb_refl. }
  rewrite E. apply replace_keys.
Qed.

Lemma update_lines_of_foreign_keys (pk : Z) (c : string) (ls : list Line) :
  List.map line_order_id (ORM.update_lines_of pk c ls) = List.map line_order_id ls.
Proof.
  induction ls as [|l ls IH]; [reflexivity|].
  simpl. rewrite IH. destruct (Z.eqb (line_order_id l) pk); reflexivity.
Qed.

Lemma update_lines_of_quantities (pk : Z) (c : string) (ls : list Line) :
  List.map line_quantity (ORM.update_lines_of pk c ls) = List.map line_quantity ls.
Proof.
  induction ls as [|l ls IH]; [reflexivity|].
  simpl. rewrite IH. destruct (Z.eqb (line_order_id l) pk); reflexivity.
Qed.

Lemma cascaded_lines_columns cfg ps o (ls : list Line) :
  List.map line_id (cascaded_lines cfg ps o ls) = List.map line_id ls /\
  List.map line_order_id (cascaded_lines cfg ps o ls) = List.map line_order_id ls /\
  List.map line_quantity (cascaded_lines cfg ps o ls) = List.map line_quantity ls.
Proof.
  unfold cascaded_lines.
  destruct (cascade_of cfg ps) as [c|]; [destruct (Py.truthy c)|]; auto.
  split; [apply update_lines_of_keys|].
  split; [apply update_lines_of_foreign_keys|apply update_lines_of_quantities].
Qed.

Lemma cascaded_lines_other cfg ps o (ls : list Line) (pk : Z) :
  pk <> order_id o ->
  List.filter (fun l => Z.eqb (line_order_id l) pk) (cascaded_lines cfg ps o ls)
  = List.filter (fun l => Z.eqb (line_order_id l) pk) ls.
Proof.
  intros Hne. unfold cascaded_lines.
  destruct (cascade_of cfg ps) as [c|]; [destruct (Py.truthy c)|]; auto.
  apply update_lines_of_other. exact Hne.
Qed.

(** X4. Whatever the outcome, [order_status_changed] never touches the
    Docdata order rows (the ledger of totals) nor the source types, never
    inserts or deletes an order row or a line, and never changes a line's
    order or quantity: of the lines only the status column can change. *)
Theorem order_status_changed_frame cfg d old new (w : World) :
  let w' := (order_status_changed cfg d old new w).2 in
  docdata_orders (store w') = docdata_orders (store w) /\
  source_types (store w') = source_types (store w) /\
  List.map order_id (orders (store w')) = List.map order_id (orders (store w)) /\
  List.map line_id (lines (store w')) = List.map line_id (lines (store w)) /\
  List.map line_order_id (lines (store w'))
  = List.map line_order_id (lines (store w)) /\
  List.map line_quantity (lines (store w'))
  = List.map line_quantity (lines (store w)).
Proof.
  intros w'. subst w'.
  destruct (order_status_changed_shape cfg d old new w)
    as [_ H|_ H|o _ _ H|o Hf _ H]; rewrite H; simpl; try (repeat split; reflexivity).
  destruct (filter_singleton_In _ _ _ Hf) as [Hin _].
  destruct (cascaded_lines_columns cfg (project_status_of cfg new) o (lines (store w)))
    as [Hk [Hfk Hq]].
  repeat split; try assumption.
  apply write_order_keys with (o := o); [exact Hin|reflexivity].
Qed.

Lemma unique_key_identifies (os : list Order) (r o : Order) :
  NoDup (List.map order_id os) ->
  In r os -> In o os -> order_id r = order_id o -> r = o.
Proof.
  induction os as [|x os IH]; intros Hnd Hr Ho Hid; [destruct Hr|].
  simpl in Hnd. inversion Hnd as [|y l Hnotin Hnd']; subst y l.
  rewrite list_elem_of_In in Hnotin.
  destruct Hr as [<-|Hr], Ho as [<-|Ho].
  - reflexivity.
  - exfalso. apply Hnotin. rewrite Hid. apply in_map. exact Ho.
  - exfalso. apply Hnotin. rewrite <- Hid. apply in_map. exact Hr.
  - apply IH; assumption.
Qed.

(** X5. With unique primary keys, a notification for one order number
    leaves every order row of another number exactly as it was, at its
    place in the table, and leaves the lines of that other order as they
    were. *)
Theorem other_orders_are_untouched cfg d old new (w : World) :
  primary_keys_unique w ->
  let w' := (order_status_changed cfg d old new w).2 in
  forall i r,
    orders (store w) !! i = Some r ->
    order_number r <> DocdataOrder.merchant_order_id d ->
    orders (store w') !! i = Some r /\
    lines_of (order_id r) w' = lines_of (order_id r) w.
Proof.
  intros Hpk w' i r Hi Hnum. subst w'.
  destruct (order_status_changed_shape cfg d old new w)
    as [_ H|_ H|o _ _ H|o Hf _ H]; rewrite H; simpl;
    try (split; [exact Hi|reflexivity]).
  destruct (filter_singleton_In _ _ _ Hf) as [Hin Hn].
  apply String.eqb_eq in Hn.
  assert (Hr : In r (orders (store w))).
  { apply list_elem_of_In. apply list_elem_of_lookup. exists i. exact Hi. }
  assert (Hid : order_id r <> order_id o).
  { intros Hid. apply Hnum.
    rewrite (unique_key_identifies _ r o Hpk Hr Hin Hid). exact Hn. }
  split.
  - unfold ORM.write_order.
    assert (E : existsb (ORM.has_pk (order_id (set_order_status
                                                  (project_status_of cfg new) o)))
                        (orders (store w)) = true).
    { apply existsb_exists. exists o. split; [exact Hin|].
      unfold ORM.has_pk. apply Z.eqb_refl. }
    rewrite E, lookup_map, Hi. simpl.
    unfold ORM.has_pk. simpl. apply Z.eqb_neq in Hid. rewrite Hid. reflexivity.
  - unfold lines_of. simpl. apply cascaded_lines_other. exact Hid.
Qed.

Lemma other_orders_are_untouched_witness :
  let w' := (order_status_changed Sample.settings Sample.docdataorder "new" "paid"
               Sample.pending_world).2 in
  orders (store w') !! 1%nat = Some Sample.other_order /\
  lines_of 2 w' = lines_of 2 Sample.pending_world.
Proof.
  apply (other_orders_are_untouched Sample.settings Sample.docdataorder "new" "paid"
           Sample.pending_world).
  - unfold primary_keys_unique. apply (bool_decide_unpack _). reflexivity.
  - reflexivity.
  - vm_compute. discriminate.
Defined.

(** ** Deliveries in sequence *)

(** X6. With unique primary keys, delivering the same notification a second
    time after it has been applied does not come back normally: the second
    run ends with [IndexError], changes no table and issues nothing, so
    that over both deliveries the signal is sent exactly once. *)
Theorem redelivery_after_transition cfg d old new (w : World) (o : Order) :
  finds w (DocdataOrder.merchant_order_id d) o ->
  order_status o <> project_status_of cfg new ->
  primary_keys_unique w ->
  exists w1 w2,
    order_status_changed cfg d old new w = (Returns tt, w1) /\
    order_status_changed cfg d old new w1 = (Raises IndexError, w2) /\
    store w2 = store w1 /\
    journal w2 = journal w1 /\
    List.filter is_signal (emitted w w2) = [EvSignal d old new].
Proof.
  intros Hf Hs Hpk.
  set (ps := project_status_of cfg new).
  set (w1 := record_event (EvSignal d old new) (persisted_world cfg ps o w)).
  assert (Hf1 : finds w1 (DocdataOrder.merchant_order_id d) (set_order_status ps o)).
  { unfold finds. simpl. apply write_order_finds with (o := o).
    - exact Hpk.
    - reflexivity.
    - destruct (filter_singleton_In _ _ _ Hf) as [_ Hn].
      apply String.eqb_eq in Hn. exact Hn.
    - exact Hf. }
  exists w1, (bound w1).
  split; [apply order_status_changed_applied; assumption|].
  split; [apply order_status_changed_duplicate with (o := set_order_status ps o);
          [exact Hf1|reflexivity]|].
  split; [reflexivity|]. split; [reflexivity|].
  change (emitted w (bound w1)) with (emitted w w1).
  unfold w1, ps. rewrite emitted_applied.
  rewrite !List.filter_app. simpl.
  unfold cascade_events.
  destruct (cascade_of cfg (project_status_of cfg new)) as [c|];
    [destruct (Py.truthy c)|]; reflexivity.
Qed.

Lemma redelivery_after_transition_witness :
  exists w1 w2,
    order_status_changed Sample.settings Sample.docdataorder "new" "paid"
      Sample.pending_world = (Returns tt, w1) /\
    order_status_changed Sample.settings Sample.docdataorder "new" "paid" w1
    = (Raises IndexError, w2) /\
    store w2 = store w1 /\
    List.filter is_signal (emitted Sample.pending_world w2)
    = [EvSignal Sample.docdataorder "new" "paid"].
Proof.
  destruct (redelivery_after_transition Sample.settings Sample.docdataorder
              "new" "paid" Sample.pending_world Sample.pending_order)
    as [w1 [w2 [H1 [H2 [Hst [_ Hsig]]]]]].
  - reflexivity.
  - vm_compute. discriminate.
  - unfold primary_keys_unique. apply (bool_decide_unpack _). reflexivity.
  - exists w1, w2. repeat split; assumption.
Defined.

(** X7. Of the Docdata order and the two statuses passed in,
    [order_status_changed] reads only the merchant order number and the
    new status: two notifications that agree on these end in the same
    way, leave the same tables and issue the same writes, whatever the
    previous status and the other columns of the Docdata order are. *)
Theorem order_status_changed_reads_number_and_new_status cfg
        (d1 d2 : DocdataOrder.t) (old1 old2 new : string) (w : World) :
  DocdataOrder.merchant_order_id d1 = DocdataOrder.merchant_order_id d2 ->
  let run1 := order_status_changed cfg d1 old1 new w in
  let run2 := order_status_changed cfg d2 old2 new w in
  run1.1 = run2.1 /\
  store run1.2 = store run2.2 /\
  List.filter is_write (emitted w run1.2) = List.filter is_write (emitted w run2.2).
Proof.
  intros Hn run1 run2. subst run1 run2.
  destruct (order_status_changed_shape cfg d1 old1 new w)
    as [Hu H|Ha H|o Hf Hs H|o Hf Hs H]; rewrite H; rewrite Hn in *.
  - rewrite (order_status_changed_unknown cfg d2 old2 new w Hu).
    repeat split; reflexivity.
  - rewrite (order_status_changed_ambiguous cfg d2 old2 new w Ha).
    repeat split; reflexivity.
  - rewrite (order_status_changed_duplicate cfg d2 old2 new w o Hf Hs).
    repeat split; reflexivity.
  - rewrite (order_status_changed_applied cfg d2 old2 new w o Hf Hs).
    cbn [fst snd]. rewrite !emitted_applied, !List.filter_app.
    repeat split; reflexivity.
Qed.

Lemma order_status_changed_reads_number_and_new_status_witness :
  let run1 := order_status_changed Sample.settings Sample.docdataorder
                "new" "paid" Sample.pending_world in
  let run2 := order_status_changed Sample.settings Scenario.redirect_docdataorder
                "authorized" "paid" Sample.pending_world in
  run1.1 = run2.1 /\
  store run1.2 = store run2.2 /\
  List.filter is_write (emitted Sample.pending_world run1.2)
  = List.filter is_write (emitted Sample.pending_world run2.2).
Proof.
  apply (order_status_changed_reads_number_and_new_status Sample.settings
           Sample.docdataorder Scenario.redirect_docdataorder
           "new" "authorized" "paid" Sample.pending_world).
  reflexivity.
Defined.

(** ** The model classes *)

(** X8. [_lazy_get_models] binds the model classes once: after it they are
    bound, a further call changes nothing at all, and it never touches the
    tables or issues an effect; and every run of [order_status_changed]
    and of [get_source_type], also one that raises, leaves them bound. *)
Theorem models_are_bound_once cfg d old new (w : World) :
  let w1 := (_lazy_get_models w).2 in
  models_bound w1 = true /\
  store w1 = store w /\
  journal w1 = journal w /\
  _lazy_get_models w1 = (Returns tt, w1) /\
  models_bound (order_status_changed cfg d old new w).2 = true /\
  models_bound (get_source_type w).2 = true.
Proof.
  intros w1. subst w1. rewrite lazy_get_models_spec. simpl.
  repeat split.
  - destruct (order_status_changed_shape cfg d old new w)
      as [_ H|_ H|o _ _ H|o _ _ H]; rewrite H; reflexivity.
  - unfold get_source_type.
    rewrite (bind_returns _ _ _ _ _ (lazy_get_models_spec w)).
    unfold mbind, M_bind, ORM.SourceType_get_or_create.
    destruct (List.filter _ _) as [|s [|s' rest]]; reflexivity.
Qed.

(** ** Building the payment request *)

Section Request.

Variable cfg : Settings.
Variable get_language : option string.
Variable to_iso639_part1 : option string -> outcome string.

Let args_of := get_create_payment_args cfg get_language to_iso639_part1.

(** X9. When [get_create_payment_args] returns and when it raises.  Without
    [billingaddress] among the extra keyword arguments it raises
    [KeyError] for that key, whatever the rest of the call is; with it,
    a user without first or last name makes it raise [ValueError]; it
    returns exactly when [billingaddress] is there, the user has both
    names and [to_iso639_part1] answers for the language.  No other
    keyword argument has any influence on the result, whether it is
    added, replaced or removed. *)
Theorem get_create_payment_args_needs_billingaddress (call : PaymentCall) :
  (call_kwargs call !! "billingaddress" = None ->
   args_of call = Raises (KeyError "billingaddress")) /\
  (is_Some (call_kwargs call !! "billingaddress") ->
   user_first_name (call_user call) = "" \/ user_last_name (call_user call) = "" ->
   args_of call = Raises ValueError) /\
  ((exists args, args_of call = Returns args) <->
   is_Some (call_kwargs call !! "billingaddress") /\
   user_first_name (call_user call) <> "" /\
   user_last_name (call_user call) <> "" /\
   exists language,
     to_iso639_part1 (Py.or_none (call_language call) get_language)
     = Returns language) /\
  (forall k v, k <> "billingaddress" ->
     args_of (with_kwargs (<[k := v]> (call_kwargs call)) call) = args_of call) /\
  (forall k, k <> "billingaddress" ->
     args_of (with_kwargs (delete k (call_kwargs call)) call) = args_of call).
Proof.
  unfold args_of.
  split; [|split; [|split; [|split]]].
  - intros H. unfold get_create_payment_args. rewrite H. reflexivity.
  - intros [ba Hb] Hnames. unfold get_create_payment_args. rewrite Hb.
    rewrite (Name_new_refuses _ _ Hnames). reflexivity.
  - split.
    + intros [args Hrun].
      destruct (get_create_payment_args_inv _ _ _ _ _ Hrun)
        as [ba [l [Hb [Hf [Hl [Hi _]]]]]].
      split; [exists ba; exact Hb|]. split; [exact Hf|]. split; [exact Hl|].
      exists l. exact Hi.
    + intros [[ba Hb] [Hf [Hl [l Hi]]]].
      apply get_create_payment_args_returns with (billingaddress := ba)
                                                 (language := l); assumption.
  - intros k v Hk. unfold get_create_payment_args.
    cbn [with_kwargs call_kwargs call_user call_total call_profile call_language
         call_description call_order_number].
    rewrite lookup_insert_ne by exact Hk. reflexivity.
  - intros k Hk. unfold get_create_payment_args.
    cbn [with_kwargs call_kwargs call_user call_total call_profile call_language
         call_description call_order_number].
    rewrite lookup_delete_ne by exact Hk. reflexivity.
Qed.

(** X10. The names of a request that [get_create_payment_args] returns:
    the shopper is named after the user; the bill-to name takes each of
    first and last name from the billing address when that one is not
    empty and from the user otherwise; neither of its parts is empty.
    Such a request is returned whenever the user has a first and a last
    name and [to_iso639_part1] answers for the language. *)
Theorem bill_to_name_falls_back_to_user (call : PaymentCall)
        (billingaddress : BillingAddress) :
  call_kwargs call !! "billingaddress" = Some billingaddress ->
  (forall args,
      args_of call = Returns args ->
      let user := call_user call in
      let name := destination_name (arg_bill_to args) in
      shopper_name (arg_shopper args)
      = {| first := user_first_name user; last := user_last_name user |} /\
      (ba_first_name billingaddress <> "" -> first name = ba_first_name billingaddress) /\
      (ba_first_name billingaddress = "" -> first name = user_first_name user) /\
      (ba_last_name billingaddress <> "" -> last name = ba_last_name billingaddress) /\
      (ba_last_name billingaddress = "" -> last name = user_last_name user) /\
      first name <> "" /\
      last name <> "") /\
  (forall language,
      user_first_name (call_user call) <> "" ->
      user_last_name (call_user call) <> "" ->
      to_iso639_part1 (Py.or_none (call_language call) get_language)
      = Returns language ->
      exists args, args_of call = Returns args).
Proof.
  intros Hb. unfold args_of. split.
  - intros args Hrun.
    destruct (get_create_payment_args_inv _ _ _ _ _ Hrun)
      as [ba [l [Hb' [Hf [Hl [_ [_ [_ [Hshopper [Hname _]]]]]]]]]].
    rewrite Hb in Hb'. injection Hb' as <-.
    cbv zeta. rewrite Hshopper, Hname. cbn [shopper_name first last].
    split; [reflexivity|].
    unfold Py.or_.
    destruct (ba_first_name billingaddress) as [|c1 s1],
             (ba_last_name billingaddress) as [|c2 s2]; simpl;
      repeat split; intros; congruence.
  - intros language Hf Hl Hi.
    apply get_create_payment_args_returns with (billingaddress := billingaddress)
                                               (language := language);
      assumption.
Qed.

(** X11. The defaults of a request that [get_create_payment_args] returns:
    a profile that is missing or empty is replaced by the configured
    profile, and a language that is missing or empty by the active
    language; a profile or language that is given and not empty is used
    as it is.  The language of the shopper is always what
    [to_iso639_part1] makes of it.  Such a request is returned whenever
    the user has a first and a last name and [to_iso639_part1] answers
    for the language. *)
Theorem request_defaults (call : PaymentCall) (billingaddress : BillingAddress) :
  call_kwargs call !! "billingaddress" = Some billingaddress ->
  (forall args,
      args_of call = Returns args ->
      (call_profile call = None \/ call_profile call = Some "" ->
       arg_profile args = DOCDATA_PROFILE cfg) /\
      (forall p, call_profile call = Some p -> p <> "" -> arg_profile args = p) /\
      (DOCDATA_PROFILE cfg <> "" -> arg_profile args <> "") /\
      (call_language call = None \/ call_language call = Some "" ->
       to_iso639_part1 get_language
       = Returns (shopper_language (arg_shopper args))) /\
      (forall l, call_language call = Some l -> l <> "" ->
       to_iso639_part1 (Some l)
       = Returns (shopper_language (arg_shopper args)))) /\
  (forall language,
      user_first_name (call_user call) <> "" ->
      user_last_name (call_user call) <> "" ->
      to_iso639_part1 (Py.or_none (call_language call) get_language)
      = Returns language ->
      exists args, args_of call = Returns args).
Proof.
  intros Hb. unfold args_of. split.
  - intros args Hrun.
    destruct (get_create_payment_args_inv _ _ _ _ _ Hrun)
      as [ba [l [_ [_ [_ [Hi [_ [_ [Hshopper [_ [_ [_ Hprofile]]]]]]]]]]]].
    rewrite Hshopper, Hprofile. cbn [shopper_language].
    unfold Py.or_opt. unfold Py.or_none in Hi.
    split; [intros [Hp|Hp]; rewrite Hp; reflexivity|].
    split; [intros p Hp Hne; rewrite Hp; destruct p; [congruence|reflexivity]|].
    split; [intros Hd; destruct (call_profile call) as [[|c p]|]; simpl; congruence|].
    split; [intros [Hl|Hl]; rewrite Hl in Hi; exact Hi|].
    intros l0 Hl Hne. rewrite Hl in Hi. destruct l0; [congruence|exact Hi].
  - intros language Hf Hl Hi.
    apply get_create_payment_args_returns with (billingaddress := billingaddress)
                                               (language := language);
      assumption.
Qed.

(** X12. Filling in the default profile twice is the same as doing it
    once: the call that [create_payment] hands on, with the profile
    already filled in, yields the same request arguments as the original
    call, and [create_payment] itself does the same on it as on the
    original call. *)
Theorem default_profile_is_stable (call : PaymentCall) :
  args_of (with_profile (profile_of cfg call) call) = args_of call /\
  forall (gateway : PaymentCall -> M string) (w : World),
    create_payment cfg gateway (with_profile (profile_of cfg call) call) w
    = create_payment cfg gateway call w.
Proof.
  assert (Hp : profile_of cfg (with_profile (profile_of cfg call) call)
               = profile_of cfg call).
  { unfold profile_of, Py.or_opt. simpl.
    destruct (call_profile call) as [[|c p]|]; simpl;
      destruct (DOCDATA_PROFILE cfg); reflexivity. }
  split;
    [|intros gateway w; unfold create_payment;
      fold (profile_of cfg (with_profile (profile_of cfg call) call));
      fold (profile_of cfg call); rewrite Hp; reflexivity].
  unfold args_of, get_create_payment_args.
  cbn [with_profile call_kwargs call_user call_total call_profile call_language
       call_description call_order_number].
  destruct (call_kwargs call !! "billingaddress") as [ba|]; [|reflexivity].
  fold (profile_of cfg (with_profile (profile_of cfg call) call)).
  change (Py.or_opt (Some (profile_of cfg call)) (DOCDATA_PROFILE cfg))
    with (profile_of cfg (with_profile (profile_of cfg call) call)).
  rewrite Hp. reflexivity.
Qed.

End Request.

Lemma get_create_payment_args_needs_billingaddress_witness :
  get_create_payment_args Sample.settings (Some "nl") Scenario.language_part
    (with_kwargs ∅ (Scenario.with_user Scenario.nameless_user Sample.call))
  = Raises (KeyError "billingaddress") /\
  get_create_payment_args Sample.settings (Some "nl") Scenario.language_part
    (Scenario.with_user Scenario.nameless_user Sample.call)
  = Raises ValueError /\
  (exists args,
      get_create_payment_args Sample.settings (Some "nl") Scenario.language_part
        Sample.call = Returns args) /\
  get_create_payment_args Sample.settings (Some "nl") Scenario.language_part
    (with_kwargs (<["shippingaddress" := Sample.billingaddress]>
                    (call_kwargs Sample.call)) Sample.call)
  = get_create_payment_args Sample.settings (Some "nl") Scenario.language_part
      Sample.call.
Proof.
  split; [|split; [|split]].
  - apply (proj1 (get_create_payment_args_needs_billingaddress
                    Sample.settings (Some "nl") Scenario.language_part
                    (with_kwargs ∅ (Scenario.with_user Scenario.nameless_user
                                      Sample.call)))).
    reflexivity.
  - apply (proj1 (proj2 (get_create_payment_args_needs_billingaddress
                           Sample.settings (Some "nl") Scenario.language_part
                           (Scenario.with_user Scenario.nameless_user Sample.call)))).
    + exists Sample.billingaddress. reflexivity.
    + left. reflexivity.
  - apply (proj2 (proj1 (proj2 (proj2 (get_create_payment_args_needs_billingaddress
                                         Sample.settings (Some "nl")
                                         Scenario.language_part Sample.call))))).
    split; [exists Sample.billingaddress; reflexivity|].
    split; [discriminate|]. split; [discriminate|].
    exists "nl". reflexivity.
  - apply (proj1 (proj2 (proj2 (proj2 (get_create_payment_args_needs_billingaddress
                                         Sample.settings (Some "nl")
                                         Scenario.language_part Sample.call))))).
    discriminate.
Defined.

Lemma bill_to_name_falls_back_to_user_witness :
  exists args,
    get_create_payment_args Sample.settings (Some "nl") Scenario.language_part
      Sample.call = Returns args /\
    destination_name (arg_bill_to args) = {| first := "Anna"; last := "Jansen" |}.
Proof.
  destruct (bill_to_name_falls_back_to_user Sample.settings (Some "nl")
              Scenario.language_part Sample.call Sample.billingaddress eq_refl)
    as [Hnames Hreturns].
  destruct (Hreturns "nl") as [args Hrun];
    [discriminate|discriminate|reflexivity|].
  exists args. split; [exact Hrun|].
  destruct (Hnames args Hrun) as [_ [_ [Hfirst [Hlast _]]]].
  destruct (destination_name (arg_bill_to args)) as [f l]. simpl in *.
  rewrite (Hfirst eq_refl), Hlast by discriminate. reflexivity.
Defined.

Lemma request_defaults_witness :
  exists args,
    get_create_payment_args Sample.settings (Some "nl-NL") Scenario.language_part
      Sample.call = Returns args /\
    arg_profile args = "standard" /\
    shopper_language (arg_shopper args) = "nl".
Proof.
  destruct (request_defaults Sample.settings (Some "nl-NL")
              Scenario.language_part Sample.call Sample.billingaddress eq_refl)
    as [Hdefaults Hreturns].
  destruct (Hreturns "nl") as [args Hrun];
    [discriminate|discriminate|reflexivity|].
  exists args. split; [exact Hrun|].
  destruct (Hdefaults args Hrun) as [Hprofile [_ [_ [Hlanguage _]]]].
  split; [apply Hprofile; left; reflexivity|].
  assert (H : Returns "nl" = Returns (shopper_language (arg_shopper args)))
    by (apply Hlanguage; left; reflexivity).
  injection H as <-. reflexivity.
Defined.

(** ** Starting a payment *)

(** X13. [create_payment] adds no effect of its own: the world after it is
    the world the underlying interface left, in every case; and an
    exception of the underlying interface that is not a creation error
    reaches the caller unchanged. *)
Theorem create_payment_is_transparent cfg (gateway : PaymentCall -> M string)
        (call : PaymentCall) (w : World) :
  let inner := gateway (with_profile (profile_of cfg call) call) w in
  (create_payment cfg gateway call w).2 = inner.2 /\
  (forall e, inner.1 = Raises e -> is_DocdataCreateError e = false ->
             create_payment cfg gateway call w = inner).
Proof.
  intros inner. subst inner.
  unfold create_payment, profile_of, try_except, mbind, M_bind, mret, M_ret, raise.
  destruct (gateway _ w) as [[key|e] w0]; simpl.
  - split; [reflexivity|]. intros e H. discriminate H.
  - destruct (is_DocdataCreateError e) eqn:E; simpl.
    + split; [reflexivity|]. intros e' H He'. injection H as <-. congruence.
    + split; [reflexivity|]. intros _ _ _. reflexivity.
Qed.

Lemma create_payment_is_transparent_witness :
  create_payment Sample.settings Scenario.unreachable_gateway Sample.call
    Sample.pending_world
  = (Raises (KeyError "endpoint"), Sample.pending_world).
Proof.
  apply (proj2 (create_payment_is_transparent Sample.settings
                  Scenario.unreachable_gateway Sample.call Sample.pending_world)
           (KeyError "endpoint")); reflexivity.
Defined.

(** ** The source type, in every situation *)

Lemma get_source_type_several (w : World) :
  (2 <= length (docdata_source_types w))%nat ->
  get_source_type w = (Raises (MultipleObjectsReturned "SourceType"), bound w).
Proof.
  intros H. unfold get_source_type.
  rewrite (bind_returns _ _ _ _ _ (lazy_get_models_spec w)).
  unfold mbind, M_bind, ORM.SourceType_get_or_create.
  change (List.filter (ORM.with_code "docdata") (source_types (store (bound w))))
    with (docdata_source_types w).
  destruct (docdata_source_types w) as [|s [|s' rest]]; simpl in H; try lia.
  reflexivity.
Qed.

(** X14. When the table already holds several source types with the code
    [docdata], [get_source_type] returns none of them: it raises
    [MultipleObjectsReturned] and creates nothing. *)
Theorem get_source_type_rejects_several (w : World) :
  (2 <= length (docdata_source_types w))%nat ->
  exists w',
    get_source_type w = (Raises (MultipleObjectsReturned "SourceType"), w') /\
    store w' = store w /\
    journal w' = journal w.
Proof.
  intros H. exists (bound w). split; [|split; reflexivity].
  apply get_source_type_several. exact H.
Qed.

Lemma get_source_type_rejects_several_witness :
  let w := Scenario.with_source_types
             [Scenario.docdata_type; Scenario.voucher_type; Scenario.docdata_type] in
  exists w',
    get_source_type w = (Raises (MultipleObjectsReturned "SourceType"), w') /\
    store w' = store w /\
    journal w' = journal w.
Proof.
  intros w.
  apply (get_source_type_rejects_several w). vm_compute. lia.
Defined.

(** X15. Whatever the outcome, [get_source_type] leaves the orders, the
    lines and the Docdata orders alone and never modifies or removes a
    source type: the table it leaves is the old one followed by at most
    one new row, which has the code [docdata] and the label
    [Docdata Payments]. *)
Theorem get_source_type_frame (w : World) :
  let w' := (get_source_type w).2 in
  orders (store w') = orders (store w) /\
  lines (store w') = lines (store w) /\
  docdata_orders (store w') = docdata_orders (store w) /\
  exists added,
    source_types (store w') = (source_types (store w) ++ added)%list /\
    (length added <= 1)%nat /\
    Forall (fun s => source_type_code s = "docdata" /\
                     source_type_name s = "Docdata Payments") added.
Proof.
  intros w'. subst w'.
  destruct (docdata_source_types w) as [|s0 [|s1 rest]] eqn:E.
  - pose proof (get_source_type_absent w E) as H. cbv zeta in H. rewrite H.
    repeat split. eexists. split; [reflexivity|].
    split; [simpl; lia|]. repeat constructor.
  - rewrite (get_source_type_existing w s0 E).
    repeat split. exists []. rewrite app_nil_r.
    split; [reflexivity|]. split; [simpl; lia|constructor].
  - rewrite get_source_type_several by (rewrite E; simpl; lia).
    repeat split. exists []. rewrite app_nil_r.
    split; [reflexivity|]. split; [simpl; lia|constructor].
Qed.

Lemma unique_code_filter (code : string) (ss : list SourceType) :
  NoDup (List.map source_type_code ss) ->
  (length (List.filter (ORM.with_code code) ss) <= 1)%nat.
Proof.
  induction ss as [|s ss IH]; intros Hnd; [simpl; lia|].
  simpl in Hnd. inversion Hnd as [|x l Hnotin Hnd']; subst x l.
  simpl. destruct (ORM.with_code code s) eqn:E; [|apply IH; exact Hnd'].
  apply String.eqb_eq in E.
  assert (Hnone : List.filter (ORM.with_code code) ss = []).
  { destruct (List.filter (ORM.with_code code) ss) as [|t ts] eqn:F; [reflexivity|].
    exfalso. apply Hnotin.
    assert (Ht : In t (List.filter (ORM.with_code code) ss))
      by (rewrite F; left; reflexivity).
    apply filter_In in Ht. destruct Ht as [Hin Hc].
    apply String.eqb_eq in Hc. rewrite E, <- Hc.
    apply list_elem_of_In. apply in_map. exact Hin. }
  rewrite Hnone. simpl. lia.
Qed.

Lemma absent_code (code : string) (ss : list SourceType) :
  List.filter (ORM.with_code code) ss = [] ->
  ~ In code (List.map source_type_code ss).
Proof.
  intros H Hin. apply in_map_iff in Hin. destruct Hin as [s [Hc Hs]].
  assert (Hf : In s (List.filter (ORM.with_code code) ss)).
  { apply filter_In. split; [exact Hs|]. apply String.eqb_eq. exact Hc. }
  rewrite H in Hf. destruct Hf.
Qed.

(** X16. Uniqueness of the codes is an invariant of [get_source_type], and
    under it the call always succeeds: if no two source types share a
    code, [get_source_type] returns a source type with the code
    [docdata], and afterwards still no two source types share a code. *)
Theorem get_source_type_keeps_codes_unique (w : World) :
  codes_unique w ->
  exists s w',
    get_source_type w = (Returns s, w') /\
    source_type_code s = "docdata" /\
    In s (source_types (store w')) /\
    codes_unique w'.
Proof.
  unfold codes_unique. intros Hnd.
  pose proof (unique_code_filter "docdata" _ Hnd) as Hle.
  fold (docdata_source_types w) in Hle.
  destruct (docdata_source_types w) as [|s0 [|s1 rest]] eqn:E.
  - pose proof (get_source_type_absent w E) as H. cbv zeta in H.
    eexists. eexists. split; [exact H|]. split; [reflexivity|].
    cbn [store source_types]. split.
    + apply in_or_app. right. left. reflexivity.
    + rewrite List.map_app. apply NoDup_app. split; [exact Hnd|]. split.
      * intros x Hx Hx'. simpl in Hx'. apply list_elem_of_In in Hx'.
        destruct Hx' as [<-|[]].
        apply (absent_code "docdata" _ E). apply list_elem_of_In. exact Hx.
      * simpl. apply NoDup_singleton.
  - exists s0, (bound w). split; [apply get_source_type_existing; exact E|].
    destruct (filter_singleton_In _ _ _ E) as [Hin Hc].
    apply String.eqb_eq in Hc.
    split; [exact Hc|]. split; [exact Hin|exact Hnd].
  - simpl in Hle. lia.
Qed.

Lemma get_source_type_keeps_codes_unique_witness :
  let w := Scenario.with_source_types [Scenario.voucher_type] in
  exists s w',
    get_source_type w = (Returns s, w') /\
    source_type_code s = "docdata" /\
    In s (source_types (store w')) /\
    codes_unique w'.
Proof.
  intros w. apply (get_source_type_keeps_codes_unique w).
  unfold codes_unique. apply (bool_decide_unpack _). reflexivity.
Defined.

(** ** The migration, run again and on filled tables *)

Lemma fill_row_twice (name : string) (r : DocdataOrder.t) :
  let fill := fun r => if Migration.merchant_name_blank r
                       then Migration.set_merchant_name name r else r in
  fill (fill r) = fill r.
Proof.
  intros fill. unfold fill.
  destruct (Migration.merchant_name_blank r) eqn:E; [|rewrite E; reflexivity].
  destruct (Migration.merchant_name_blank (Migration.set_merchant_name name r));
    reflexivity.
Qed.

(** X17. The forwards step is idempotent: running it a second time changes
    nothing more. *)
Theorem forwards_twice (cfg : Settings) (st : Store) :
  Migration.forwards cfg (Migration.forwards cfg st) = Migration.forwards cfg st.
Proof.
  unfold Migration.forwards. simpl. f_equal.
  unfold Migration.filter_update. rewrite List.map_map.
  apply List.map_ext. intros r. apply fill_row_twice.
Qed.

Lemma forwards_fills_every_row (cfg : Settings) (st : Store) :
  DOCDATA_MERCHANT_NAME cfg <> "" ->
  Forall (fun r => DocdataOrder.merchant_name r <> "")
         (docdata_orders (Migration.forwards cfg st)).
Proof.
  intros Hname. simpl. unfold Migration.filter_update. apply List.Forall_forall.
  intros r' Hin. apply in_map_iff in Hin. destruct Hin as [r [<- _]].
  unfold Migration.merchant_name_blank.
  destruct (String.eqb_spec (DocdataOrder.merchant_name r) "") as [Hb|Hb];
    [exact Hname|exact Hb].
Qed.

Lemma forwards_blank_rows (cfg : Settings) (st : Store) :
  DOCDATA_MERCHANT_NAME cfg <> "" ->
  blank_rows (Migration.forwards cfg st) = [].
Proof.
  intros Hname. pose proof (forwards_fills_every_row cfg st Hname) as Hall.
  unfold blank_rows.
  destruct (List.filter _ _) as [|r rest] eqn:F; [reflexivity|].
  exfalso.
  assert (Hr : In r (List.filter Migration.merchant_name_blank
                       (docdata_orders (Migration.forwards cfg st))))
    by (rewrite F; left; reflexivity).
  apply filter_In in Hr. destruct Hr as [Hin Hb].
  rewrite List.Forall_forall in Hall. apply (Hall r Hin).
  apply String.eqb_eq in Hb. exact Hb.
Qed.

(** X18. When the configured merchant name is not empty, no row is left
    with an empty merchant name after the forwards step, and the rows
    that had one are exactly the rows it has rewritten. *)
Theorem forwards_leaves_no_blank (cfg : Settings) (st : Store) :
  DOCDATA_MERCHANT_NAME cfg <> "" ->
  blank_rows (Migration.forwards cfg st) = [] /\
  Forall (fun r => DocdataOrder.merchant_name r <> "")
         (docdata_orders (Migration.forwards cfg st)) /\
  forall i r r',
    docdata_orders st !! i = Some r ->
    docdata_orders (Migration.forwards cfg st) !! i = Some r' ->
    (r' <> r <-> DocdataOrder.merchant_name r = "").
Proof.
  intros Hname.
  split; [apply forwards_blank_rows; exact Hname|].
  split; [apply forwards_fills_every_row; exact Hname|].
  intros i r r' Hr Hr'. simpl in Hr'.
  rewrite (filter_update_lookup _ _ _ _ Hr) in Hr'. injection Hr' as <-.
  unfold Migration.merchant_name_blank.
  destruct (String.eqb_spec (DocdataOrder.merchant_name r) "") as [Hb|Hb].
  - split; [intros _; exact Hb|]. intros _ Heq.
    apply (f_equal DocdataOrder.merchant_name) in Heq. simpl in Heq. congruence.
  - split; [intros Hne; exfalso; apply Hne; reflexivity|]. intros H. congruence.
Qed.

Lemma forwards_leaves_no_blank_witness :
  blank_rows (Migration.forwards Sample.settings (Sample.tables Sample.paid_order))
  = [] /\
  blank_rows (Sample.tables Sample.paid_order) = [Sample.docdataorder].
Proof.
  split; [|reflexivity].
  apply (proj1 (forwards_leaves_no_blank Sample.settings
                  (Sample.tables Sample.paid_order) ltac:(discriminate))).
Defined.

Lemma blank_row_refilled (r : DocdataOrder.t) :
  DocdataOrder.merchant_name r = "" -> Migration.set_merchant_name "" r = r.
Proof. destruct r. simpl. intros ->. reflexivity. Qed.

(** X19. The forwards step changes nothing exactly when there is nothing
    to fill in or nothing to fill it with: it returns the tables as they
    were if and only if no row has an empty merchant name or the
    configured merchant name is itself empty. *)
Theorem forwards_is_identity_iff (cfg : Settings) (st : Store) :
  Migration.forwards cfg st = st <->
  blank_rows st = [] \/ DOCDATA_MERCHANT_NAME cfg = "".
Proof.
  split.
  - intros Hid.
    destruct (String.eqb_spec (DOCDATA_MERCHANT_NAME cfg) "") as [Hn|Hn];
      [right; exact Hn|left].
    rewrite <- Hid. apply forwards_blank_rows. exact Hn.
  - intros H. destruct st as [os ls ss rows]. unfold Migration.forwards. simpl.
    f_equal. unfold blank_rows in H. simpl in H.
    unfold Migration.filter_update.
    rewrite <- (List.map_id rows) at 2. apply List.map_ext_in.
    intros r Hin. destruct (Migration.merchant_name_blank r) eqn:E; [|reflexivity].
    destruct H as [H|H].
    + exfalso.
      assert (Hr : In r (List.filter Migration.merchant_name_blank rows))
        by (apply filter_In; split; assumption).
      rewrite H in Hr. destruct Hr.
    + rewrite H. apply blank_row_refilled.
      apply String.eqb_eq in E. exact E.
Qed.

Lemma forwards_is_identity_iff_witness :
  let st := Migration.forwards Sample.settings (Sample.tables Sample.paid_order) in
  Migration.forwards Sample.settings st = st.
Proof.
  intros st.
  apply (proj2 (forwards_is_identity_iff Sample.settings st)).
  left. reflexivity.
Defined.

(** ** Going back to an earlier status *)

Lemma set_order_status_back (ps : string) (o : Order) :
  set_order_status (order_status o) (set_order_status ps o) = o.
Proof. destruct o. reflexivity. Qed.

Lemma write_order_back (o o' : Order) (os : list Order) :
  NoDup (List.map order_id os) ->
  In o os ->
  order_id o' = order_id o ->
  ORM.write_order o (ORM.write_order o' os) = os.
Proof.
  intros Hnd Hin Hid.
  assert (E : existsb (ORM.has_pk (order_id o')) os = true).
  { apply existsb_exists. exists o. split; [exact Hin|].
    unfold ORM.has_pk. rewrite Hid. apply Z.eqb_refl. }
  unfold ORM.write_order at 2. rewrite E.
  unfold ORM.write_order.
  assert (E' : existsb (ORM.has_pk (order_id o))
                 (List.map (fun r => if ORM.has_pk (order_id o') r then o' else r) os)
               = true).
  { apply existsb_exists. exists o'. split.
    - apply in_map_iff. exists o. split; [|exact Hin].
      unfold ORM.has_pk. rewrite Hid, Z.eqb_refl. reflexivity.
    - unfold ORM.has_pk. apply Z.eqb_eq. exact Hid. }
  rewrite E', List.map_map.
  rewrite <- (List.map_id os) at 2. apply List.map_ext_in.
  intros r Hr. unfold ORM.has_pk.
  destruct (Z.eqb (order_id r) (order_id o')) eqn:Er.
  - rewrite Hid, Z.eqb_refl. apply Z.eqb_eq in Er.
    symmetry. apply (unique_key_identifies os r o Hnd Hr Hin). congruence.
  - rewrite <- Hid, Er. reflexivity.
Qed.

(** X20. Statuses are not ordered: with unique primary keys, after a
    transition has been applied, a later notification whose mapped status
    is the status the order had before is applied as well; the order table
    is then exactly what it was at the start, and each of the two
    notifications has sent its signal. *)
Theorem status_can_be_reverted cfg d (old1 new1 old2 new2 : string)
        (w : World) (o : Order) :
  finds w (DocdataOrder.merchant_order_id d) o ->
  primary_keys_unique w ->
  order_status o <> project_status_of cfg new1 ->
  project_status_of cfg new2 = order_status o ->
  exists w1 w2,
    order_status_changed cfg d old1 new1 w = (Returns tt, w1) /\
    order_status_changed cfg d old2 new2 w1 = (Returns tt, w2) /\
    orders (store w2) = orders (store w) /\
    List.filter is_signal (emitted w w2)
    = [EvSignal d old1 new1; EvSignal d old2 new2].
Proof.
  intros Hf Hpk Hs Hback.
  set (ps1 := project_status_of cfg new1).
  set (o1 := set_order_status ps1 o).
  set (w1 := record_event (EvSignal d old1 new1) (persisted_world cfg ps1 o w)).
  destruct (filter_singleton_In _ _ _ Hf) as [Hin Hn].
  apply String.eqb_eq in Hn.
  assert (Hf1 : finds w1 (DocdataOrder.merchant_order_id d) o1).
  { unfold finds. simpl. apply write_order_finds with (o := o);
      [exact Hpk|reflexivity|exact Hn|exact Hf]. }
  assert (Hs1 : order_status o1 <> project_status_of cfg new2).
  { rewrite Hback. simpl. intros Heq. apply Hs. symmetry. exact Heq. }
  exists w1, (record_event (EvSignal d old2 new2)
                (persisted_world cfg (project_status_of cfg new2) o1 w1)).
  split; [apply order_status_changed_applied; assumption|].
  split; [apply order_status_changed_applied; assumption|].
  split.
  - simpl. rewrite Hback. unfold o1. rewrite set_order_status_back.
    apply write_order_back; [exact Hpk|exact Hin|reflexivity].
  - erewrite emitted_app; [|simpl; rewrite <- !app_assoc; reflexivity].
    rewrite !List.filter_app. simpl. unfold cascade_events.
    destruct (cascade_of cfg ps1) as [c1|]; [destruct (Py.truthy c1)|];
      destruct (cascade_of cfg (project_status_of cfg new2)) as [c2|];
      try destruct (Py.truthy c2); reflexivity.
Qed.

Lemma status_can_be_reverted_witness :
  exists w1 w2,
    order_status_changed Sample.settings Sample.docdataorder "new" "paid"
      Sample.pending_world = (Returns tt, w1) /\
    order_status_changed Sample.settings Sample.docdataorder "paid" "Pending" w1
    = (Returns tt, w2) /\
    orders (store w2) = orders (store Sample.pending_world) /\
    List.filter is_signal (emitted Sample.pending_world w2)
    = [EvSignal Sample.docdataorder "new" "paid";
       EvSignal Sample.docdataorder "paid" "Pending"].
Proof.
  apply (status_can_be_reverted Sample.settings Sample.docdataorder
           "new" "paid" "paid" "Pending" Sample.pending_world Sample.pending_order).
  - reflexivity.
  - unfold primary_keys_unique. apply (bool_decide_unpack _). reflexivity.
  - vm_compute. discriminate.
  - reflexivity.
Defined.
